(** * dicom2json: a shallow embedding of [dicomjson/dicom2json.py]

    The converter reads DICOM files, optionally removes fields named by the
    user, writes one metadata JSON document per input, extracts the pixel
    buffer into a grayscale PNG when the four pixel attributes are filled,
    and finally writes a manifest ("template") listing every output.

    The embedding threads an explicit world (file system and chronological
    event trace) through an exception monad.  Library calls (pydicom, numpy,
    cv2, pathlib, json, logging) are modelled by small functions whose doc
    comments state what is idealised. *)

From Stdlib Require Import ZArith QArith Ascii String List Strings.Byte Lia.
From Stdlib Require Import DecimalString.
From stdpp Require Import gmap strings list fin_maps.

Local Open Scope string_scope.
Local Open Scope Z_scope.
#[local] Set Warnings "-register-all".

(** ** Python values held by DICOM elements *)

Module Py.

(** What [Dataset.get(name)] can hand back: [None] (nothing of that name,
    or an element whose value is empty), an [int] (US, UL, IS, ...), a
    decimal [m * 10^e] (DS), text, a [bytes] buffer (OB, OW), or some other
    Python object (a bound method, the file-meta dataset, a flag) of which
    only the truth value is looked at. *)
Inductive value : Type :=
  | VNone
  | VInt (z : Z)
  | VDec (m e : Z)
  | VStr (s : string)
  | VBytes (b : list byte)
  | VObject (truth : bool).

(** Python truth value testing, as used by [if x and y ...]. *)
Definition truthy (v : value) : bool :=
  match v with
  | VNone => false
  | VInt z => negb (z =? 0)
  | VDec m _ => negb (m =? 0)
  | VStr s => negb (String.eqb s EmptyString)
  | VBytes b => match b with [] => false | _ :: _ => true end
  | VObject truth => truth
  end.

(** Exceptions the converter can meet. *)
Inductive exn : Type :=
  | FileNotFoundError
  | InvalidDicomError
  | PermissionError
  | ValueError (msg : string)
  | TypeError (msg : string)
  | KeyError (key : string).

(** [str(n)] for an [int]. *)
Definition str_of_int (z : Z) : string := NilZero.string_of_int (Z.to_int z).

End Py.
Export Py.

(** ** pathlib *)

Module pathlib.

(** A path is seen through its directory part and its final component. *)
Record Path : Type := mkPath { parent : string; name : string }.

Definition str (p : Path) : string := parent p ++ "/" ++ name p.

(** [name.rfind('.')], counted from position [i] of the scan. *)
Fixpoint rfind_dot (s : string) (i : nat) : option nat :=
  match s with
  | EmptyString => None
  | String c s' =>
      match rfind_dot s' (S i) with
      | Some j => Some j
      | None => if Ascii.eqb c "."%char then Some i else None
      end
  end.

(** [PurePath.stem]: the name without its last suffix; a leading or a
    trailing dot does not start a suffix ([0 < i < len(name) - 1]). *)
Definition stem_of (nm : string) : string :=
  match rfind_dot nm 0 with
  | Some i =>
      if (0 <? i)%nat && (i + 1 <? String.length nm)%nat
      then substring 0 i nm else nm
  | None => nm
  end.

Definition stem (p : Path) : string := stem_of (name p).

(** [directory / component] for a single component; an empty component
    and the component ["."] are dropped, so joining them gives the
    directory back. *)
Definition joinpath (d : Path) (component : string) : Path :=
  if String.eqb component EmptyString || String.eqb component "." then d
  else {| parent := str d; name := component |}.

(** [PurePath.with_suffix] for a well-formed suffix (a dot followed by
    text): the old suffix, if any, is replaced.  A path with an empty name
    raises [ValueError]. *)
Definition with_suffix (p : Path) (suffix : string) : Path + exn :=
  if String.eqb (name p) EmptyString
  then inr (ValueError "path has an empty name")
  else inl {| parent := parent p; name := stem_of (name p) ++ suffix |}.

(** [Path.resolve()]: paths are kept absolute, so resolving changes
    nothing. *)
Definition resolve (p : Path) : Path := p.

End pathlib.
Export pathlib.

(** ** json *)

Module json.

(** JSON documents.  A Python [dict] is an association list in insertion
    order; [None] is [JNull]. *)
Inductive t : Type :=
  | JNull
  | JInt (z : Z)
  | JReal (m e : Z)
  | JStr (s : string)
  | JArr (items : list t)
  | JObj (members : list (string * t)).

(** Key order of [sort_keys=True]: code-point order on the keys. *)
Fixpoint insert_member (kv : string * t) (l : list (string * t)) : list (string * t) :=
  match l with
  | [] => [kv]
  | kv' :: l' =>
      if String.leb (fst kv) (fst kv') then kv :: l
      else kv' :: insert_member kv l'
  end.

Definition sort_members (l : list (string * t)) : list (string * t) :=
  fold_right insert_member [] l.

Fixpoint sorted (j : t) : t :=
  match j with
  | JArr items => JArr (List.map sorted items)
  | JObj members =>
      JObj (sort_members (List.map (fun '(k, v) => (k, sorted v)) members))
  | _ => j
  end.

(** The text [json.dumps] returns, kept as the document it denotes together
    with the layout parameter. *)
Inductive text : Type := Rendered (indent : nat) (doc : t).

Definition dumps (data : t) (indent : nat) (sort_keys : bool) : text :=
  Rendered indent (if sort_keys then sorted data else data).

Definition doc_of (x : text) : t := match x with Rendered _ d => d end.

(** Member lookup in an object. *)
Fixpoint assoc (k : string) (l : list (string * t)) : option t :=
  match l with
  | [] => None
  | (k', v) :: l' => if String.eqb k k' then Some v else assoc k l'
  end.

Definition member (k : string) (j : t) : option t :=
  match j with JObj l => assoc k l | _ => None end.

(** The value reached by following member names from the root. *)
Fixpoint lookup_path (keys : list string) (j : t) : option t :=
  match keys with
  | [] => Some j
  | k :: rest =>
      match member k j with
      | Some v => lookup_path rest v
      | None => None
      end
  end.

End json.

(** ** The [constants] module *)

(** Modelled from the spec: [DicomConstants] is imported from the
    [constants] module, which is not among the sources; directories are
    expanded on the format's standard extension. *)
Module DicomConstants.
Definition SUFFIX : string := ".dcm".
End DicomConstants.

(** Modelled from the spec: [JsonConstants] is imported from the
    [constants] module, which is not among the sources; the metadata
    document is [{"meta": ..., "data": ...}] in a [.json] file and a manifest
    entry is [{template, image, output}]. *)
Module JsonConstants.
Definition SUFFIX : string := ".json".
Definition META : string := "meta".
Definition DATA : string := "data".
Definition TEMPLATE : string := "template".
Definition IMAGE : string := "image".
Definition OUTPUT : string := "output".
End JsonConstants.

(** Modelled from the spec: [PngConstants] is imported from the
    [constants] module, which is not among the sources; the image is written
    at the sibling [.png] path. *)
Module PngConstants.
Definition SUFFIX : string := ".png".
End PngConstants.

(** ** numpy and cv2 *)

Module np.

Inductive dtype : Type := uint8 | uint16.

Definition itemsize (d : dtype) : Z :=
  match d with uint8 => 1 | uint16 => 2 end.

Definition bits (d : dtype) : Z := 8 * itemsize d.

(** Byte order of the host, which is the order of a native [uint16]. *)
Inductive endianness : Type := Little | Big.

Definition byte_val (b : byte) : Z := Z.of_N (Byte.to_N b).

Definition word16 (o : endianness) (b0 b1 : byte) : Z :=
  match o with
  | Little => byte_val b0 + 256 * byte_val b1
  | Big => 256 * byte_val b0 + byte_val b1
  end.

Fixpoint words16 (o : endianness) (buffer : list byte) : list Z :=
  match buffer with
  | b0 :: b1 :: rest => word16 o b0 b1 :: words16 o rest
  | _ => []
  end.

(** The buffer seen as a flat sequence of samples. *)
Definition samples (o : endianness) (d : dtype) (buffer : list byte) : list Z :=
  match d with
  | uint8 => List.map byte_val buffer
  | uint16 => words16 o buffer
  end.

(** C-order (row-major) view: row [i] is samples [i*c .. i*c + c - 1]. *)
Fixpoint reshape (r c : nat) (xs : list Z) : list (list Z) :=
  match r with
  | O => []
  | S r' => take c xs :: reshape r' c (drop c xs)
  end.

Record ndarray : Type := mkArray { array_dtype : dtype; array_rows : list (list Z) }.

(** [np.ndarray(shape=(rows, columns), dtype, buffer)]: a view on the
    buffer; numpy rejects negative dimensions and a buffer shorter than the
    view. *)
Definition ndarray_of (o : endianness) (rows columns : Z) (d : dtype)
    (buffer : list byte) : ndarray + exn :=
  if (rows <? 0) || (columns <? 0)
  then inr (ValueError "negative dimensions are not allowed")
  else if Z.of_nat (length buffer) <? rows * columns * itemsize d
  then inr (TypeError "buffer is too small for requested array")
  else inl {| array_dtype := d;
              array_rows := reshape (Z.to_nat rows) (Z.to_nat columns)
                              (samples o d buffer) |}.

End np.

(** ** Environment of a run *)

(** What the converter takes from its installation and its libraries: the
    directory holding the script, the DICOM JSON model of pydicom (the
    member key of a keyword, i.e. its eight-digit tag, and the member built
    for an element), the byte order of the host, and the names pydicom's
    [Dataset] class answers itself (methods such as [keys], [values],
    [items], flags, ...), each with the truth value of what it answers.
    The four keywords the converter reads are not among these names. *)
Class Env : Type := {
  here : Path;
  json_key : string -> string;
  json_element : string -> value -> json.t;
  byteorder : np.endianness;
  dataset_attribute : string -> option bool;
  pixel_keywords_are_elements :
    forall k, In k ["Rows"; "Columns"; "PixelData"; "BitsStored"] ->
              dataset_attribute k = None
}.

(** ** pydicom datasets *)

Module pydicom.

(** A parsed file: the file-meta header and the data elements, both keyed
    by DICOM keyword. *)
Record Dataset : Type := mkDataset {
  file_meta : gmap string value;
  elements : gmap string value
}.

(** What [getattr(dataset, name)] finds on the object itself, before any
    element: the header under [file_meta] (a dataset, true when it has
    elements) and the names of the class. *)
Definition attribute `{Env} (ds : Dataset) (name : string) : option value :=
  if String.eqb name "file_meta"
  then Some (VObject (match map_to_list (file_meta ds) with
                      | [] => false
                      | _ :: _ => true
                      end))
  else option_map VObject (dataset_attribute name).

(** [Dataset.get(name)] is [getattr] with [None] as default: an attribute
    of the object if there is one of that name, else the value of the
    element of that keyword, else [None]. *)
Definition get `{Env} (ds : Dataset) (name : string) : value :=
  match attribute ds name with
  | Some obj => obj
  | None => default VNone (elements ds !! name)
  end.

(** [Dataset.pop(keyword)] deletes the element; a name that is the keyword
    of no element raises KeyError. *)
Definition pop (ds : Dataset) (keyword : string) : Dataset + exn :=
  match elements ds !! keyword with
  | Some _ => inl {| file_meta := file_meta ds;
                     elements := delete keyword (elements ds) |}
  | None => inr (KeyError keyword)
  end.

End pydicom.
Export pydicom.

(** ** World: file system and trace *)

Inductive file : Type :=
  | DicomFile (ds : Dataset)
  | JsonFile (content : json.text)
  | PngFile (img : np.ndarray)
  | OtherFile
  | Unreadable.

Inductive level : Type := DEBUG | WARNING | ERROR.

Inductive event : Type :=
  | Logged (lvl : level) (msg : string)
  | Written (path : string) (content : file).

Record World : Type := mkWorld {
  fs : gmap string file;
  trace : list event
}.

(** ** Exception monad over the world *)

Definition M (A : Type) : Type := World -> (A + exn) * World.

Definition ret {A} (a : A) : M A := fun w => (inl a, w).

Definition raise {A} (e : exn) : M A := fun w => (inr e, w).

Definition bind {A B} (m : M A) (k : A -> M B) : M B :=
  fun w =>
    match m w with
    | (inl a, w') => k a w'
    | (inr e, w') => (inr e, w')
    end.

Definition lift {A} (r : A + exn) : M A := fun w => (r, w).

Notation "'let*' x ':=' m 'in' k" := (bind m (fun x => k))
  (at level 10, x pattern, m at level 100, k at level 200).
Notation "m ';;' k" := (bind m (fun _ => k))
  (at level 100, k at level 200, right associativity).

(** [try: body  except (E1, ..., En) as error: raise error]. *)
Definition try_except_raise {A} (handled : exn -> bool) (body : M A) : M A :=
  fun w =>
    match body w with
    | (inr e, w') => if handled e then (inr e, w') else (inr e, w')
    | r => r
    end.

(** The tuple of exception classes both handlers name; [UnboundLocalError]
    has no model here as every local is bound before use. *)
Definition handled_errors (e : exn) : bool :=
  match e with
  | FileNotFoundError | InvalidDicomError | PermissionError => true
  | _ => false
  end.

(** ** Primitive effects *)

Definition logger (lvl : level) (msg : string) : M unit :=
  fun w => (inl tt, {| fs := fs w; trace := (trace w ++ [Logged lvl msg])%list |}).

(** [dcmread(path)]: a missing file, a file without read permission and a
    file that is not DICOM raise; re-reading a file the run has written
    sees what was written. *)
Definition dcmread (path : string) : M Dataset :=
  fun w =>
    match fs w !! path with
    | None => (inr FileNotFoundError, w)
    | Some Unreadable => (inr PermissionError, w)
    | Some (DicomFile ds) => (inl ds, w)
    | Some _ => (inr InvalidDicomError, w)
    end.

(** [open(path, "w")], [write], [close] (and [cv2.imwrite]): the output
    directory ships with the tool and is taken to be writable, so the write
    is total; it replaces whatever the path held. *)
Definition write_file (path : string) (content : file) : M unit :=
  fun w => (inl tt, {| fs := <[path := content]> (fs w);
                       trace := (trace w ++ [Written path content])%list |}).

(** ** The converter *)

Section Converter.

Context `{Env}.

(** [DEFAULT_OUTPUT_DIR = Path(__file__).parent / Path("output")] *)
Definition DEFAULT_OUTPUT_DIR : Path := joinpath here "output".

(** [json.dumps(data, indent=2, sort_keys=True)] *)
Definition my_json_dumps (data : json.t) : json.text := json.dumps data 2 true.

(** One item of the [converted_data] list; the constructor takes
    [image], [output], [template] in this order. *)
Record DicomConvertedData : Type := mkConverted {
  image : option string;
  output : string;
  template : string
}.

(** [to_json_dict()] of a set of elements: one member per element. *)
Definition to_json_dict (elems : gmap string value) : json.t :=
  json.JObj (List.map (fun '(k, v) => (json_key k, json_element k v))
               (map_to_list elems)).

(** [len(pixel_data)]; the value of [PixelData] is a [bytes] object. *)
Definition py_len (v : value) : Z + exn :=
  match v with
  | VBytes b => inl (Z.of_nat (length b))
  | _ => inr (TypeError "object has no len()")
  end.

(** The value of a US attribute ([Rows], [Columns], [BitsStored]) as the
    [int] pydicom decodes it to.  A value of another type is outside what
    is modelled of line 68 (a DS float multiplies on in Python): the model
    stops there, and the statements below that read these attributes fix
    their types. *)
Definition py_int (v : value) : Z + exn :=
  match v with
  | VInt z => inl z
  | _ => inr (TypeError "unsupported operand type(s)")
  end.

(** [rows * columns * (bits_stored / 8)].  The true division yields a
    float; the three operands are 16-bit unsigned values, so every
    intermediate result is below [2^53] and the binary64 computation is
    exact: it is carried out in [Q]. *)
Definition expected_length (rows columns bits_stored : Z) : Q :=
  (inject_Z (rows * columns) * (inject_Z bits_stored / inject_Z 8))%Q.

(** [int(x)] for a float: truncation towards zero. *)
Definition int_of_float (x : Q) : Z := Z.quot (Qnum x) (Z.pos (Qden x)).

(** [rows and columns and pixel_data and bits_stored] as a condition. *)
Definition filled (rows columns pixel_data bits_stored : value) : bool :=
  truthy rows && truthy columns && truthy pixel_data && truthy bits_stored.

(** The loop over [remove_dicom_fields]: an element whose value is truthy
    is popped, any other name is reported. *)
Fixpoint remove_fields (names : list string) (dicom_dataset : Dataset) : M Dataset :=
  match names with
  | [] => ret dicom_dataset
  | dicom_fields_name :: rest =>
      let* dicom_dataset :=
        (if truthy (get dicom_dataset dicom_fields_name)
         then lift (pop dicom_dataset dicom_fields_name)
         else
           (let dicom_error :=
              "Unrecognized DICOM field named '" ++ dicom_fields_name ++ "'" in
            logger WARNING dicom_error ;;
            ret dicom_dataset)) in
      remove_fields rest dicom_dataset
  end.

(** [if remove_dicom_fields:] guards the loop: [None] and the empty list
    skip it. *)
Definition remove_requested (remove_dicom_fields : option (list string))
    (dicom_dataset : Dataset) : M Dataset :=
  match remove_dicom_fields with
  | Some (n :: ns) => remove_fields (n :: ns) dicom_dataset
  | _ => ret dicom_dataset
  end.

(** The document written for one input. *)
Definition dataset_document (dicom_dataset : Dataset) : json.t :=
  let dicom_dataset_to_json_meta := to_json_dict (file_meta dicom_dataset) in
  let dicom_dataset_to_json := to_json_dict (elements dicom_dataset) in
  json.JObj [(JsonConstants.META, dicom_dataset_to_json_meta);
             (JsonConstants.DATA, dicom_dataset_to_json)].

Definition convert_dicom_to_data (input_file : Path)
    (remove_dicom_fields : option (list string))
    (converted_data : list DicomConvertedData) : M (list DicomConvertedData) :=
  try_except_raise handled_errors (
    let* dicom_dataset := dcmread (str input_file) in
    (* Extract DICOM data *)
    let rows := get dicom_dataset "Rows" in
    let columns := get dicom_dataset "Columns" in
    let pixel_data := get dicom_dataset "PixelData" in
    let bits_stored := get dicom_dataset "BitsStored" in
    let* lengths :=
      (if truthy pixel_data && truthy rows && truthy columns && truthy bits_stored
       then
         (let* pixel_data_length := lift (py_len pixel_data) in
          let* r := lift (py_int rows) in
          let* c := lift (py_int columns) in
          let* b := lift (py_int bits_stored) in
          ret (Some (pixel_data_length, expected_length r c b)))
       else ret None) in
    (* Format output filepath *)
    let output_filepath := joinpath DEFAULT_OUTPUT_DIR (stem input_file) in
    let* output_dataset_filepath :=
      lift (with_suffix output_filepath JsonConstants.SUFFIX) in
    let* output_image_filepath :=
      lift (with_suffix output_filepath PngConstants.SUFFIX) in
    (* Remove DICOM fields specified by the user *)
    let* dicom_dataset := remove_requested remove_dicom_fields dicom_dataset in
    (* Write dataset JSON file *)
    write_file (str output_dataset_filepath)
      (JsonFile (my_json_dumps (dataset_document dicom_dataset))) ;;
    (* Create image only if Rows, Columns, BitsStored and PixelData are filled *)
    if filled rows columns pixel_data bits_stored then
      (* bits_stored is an int here: the lengths above were computed *)
      let* bits := lift (py_int bits_stored) in
      let* img_dtype :=
        (if bits =? 8 then ret np.uint8
         else if bits =? 16 then ret np.uint16
         else
           (let bits_stored_error :=
              "Unrecognized DICOM BitsStored value '" ++ str_of_int bits ++ "'" in
            raise (ValueError bits_stored_error))) in
      (* Check buffer size consistancy *)
      match lengths with
      | None => raise (TypeError "int() argument must be a number, not NoneType")
      | Some (pixel_data_length, pixel_data_expected_length) =>
          if negb (pixel_data_length =? int_of_float pixel_data_expected_length)
          then
            logger ERROR (str (resolve input_file) ++ " buffer size is not consistent") ;;
            ret (converted_data ++
                   [mkConverted None (name input_file) (str output_dataset_filepath)])%list
          else
            (* Write image PNG file *)
            let* r := lift (py_int rows) in
            let* c := lift (py_int columns) in
            let* dicom_image :=
              lift (match pixel_data with
                    | VBytes buffer => np.ndarray_of byteorder r c img_dtype buffer
                    | _ => inr (TypeError "a bytes-like object is required")
                    end) in
            write_file (str output_image_filepath) (PngFile dicom_image) ;;
            (* Add full data in the main list *)
            ret (converted_data ++
                   [mkConverted (Some (str output_image_filepath))
                      (name input_file) (str output_dataset_filepath)])%list
      end
    else
      logger WARNING
        (str (resolve input_file) ++
         " has no Rows or Columns or BitsStored or PixelData DICOM fields") ;;
      ret (converted_data ++
             [mkConverted None (name input_file) (str output_dataset_filepath)])%list).

(** The first loop of [dicom2json]; [converted_data] is the list every
    call appends to. *)
Fixpoint convert_all (input_files : list Path)
    (remove_dicom_fields : option (list string))
    (converted_data : list DicomConvertedData) : M (list DicomConvertedData) :=
  match input_files with
  | [] => ret converted_data
  | input_file :: rest =>
      logger DEBUG ("Convert " ++ str (resolve input_file)) ;;
      let* converted_data :=
        convert_dicom_to_data input_file remove_dicom_fields converted_data in
      convert_all rest remove_dicom_fields converted_data
  end.

Definition json_of_option (o : option string) : json.t :=
  match o with Some s => json.JStr s | None => json.JNull end.

(** The [dict] appended to [converted_data_json_object] for one item. *)
Definition template_entry (data : DicomConvertedData) : json.t :=
  json.JObj [(JsonConstants.TEMPLATE, json.JStr (template data));
             (JsonConstants.IMAGE, json_of_option (image data));
             (JsonConstants.OUTPUT, json.JStr (output data))].

Definition dicom2json (input_files : list Path)
    (remove_dicom_fields : option (list string)) : M unit :=
  try_except_raise handled_errors (
    let* converted_data := convert_all input_files remove_dicom_fields [] in
    let* output_template_filepath :=
      lift (with_suffix (joinpath DEFAULT_OUTPUT_DIR "_dicom2json")
              JsonConstants.SUFFIX) in
    (* Write template file *)
    let converted_data_json_object := List.map template_entry converted_data in
    write_file (str output_template_filepath)
      (JsonFile (my_json_dumps (json.JArr converted_data_json_object))) ;;
    logger DEBUG ("Output files for have been writed at: '" ++
                  str DEFAULT_OUTPUT_DIR ++ "'")).

(** *** The command line *)

(** What the file system answers for a path given on the command line:
    [exists()] is false, [is_file()] is true, [is_dir()] is true (with the
    names the directory lists, in the order it lists them), or none of
    these. *)
Inductive path_kind : Type :=
  | Missing
  | RegularFile
  | Directory (listing : list string)
  | Special.

(** [name] matches the pattern ['*' + suffix]. *)
Fixpoint ends_with (suffix nm : string) : bool :=
  String.eqb nm suffix ||
  match nm with
  | EmptyString => false
  | String _ rest => ends_with suffix rest
  end.

(** [list(input_filepath.glob('*' + DicomConstants.SUFFIX.value))] *)
Definition glob_dicom (input_filepath : Path) (listing : list string) : list Path :=
  List.map (joinpath input_filepath)
    (List.filter (ends_with DicomConstants.SUFFIX) listing).

(** The loop of [main] that fills [files]; the arguments are taken as the
    paths [Path(input_file)] builds. *)
Fixpoint expand_inputs (stat : Path -> path_kind) (input_files : list Path)
    (files : list Path) : list Path + exn :=
  match input_files with
  | [] => inl files
  | input_filepath :: rest =>
      match stat input_filepath with
      | Missing =>
          inr (ValueError (str input_filepath ++
                           " does not exists, abort dicom2json execution!"))
      | RegularFile => expand_inputs stat rest (files ++ [input_filepath])%list
      | Directory listing =>
          expand_inputs stat rest (files ++ glob_dicom input_filepath listing)%list
      | Special =>
          inr (ValueError (str input_filepath ++
                           " is not a file, abort dicom2json execution!"))
      end
  end.

(** [main()] once the arguments are parsed; its handler names [Exception]
    and raises the error again. *)
Definition main (stat : Path -> path_kind) (input_files : list Path)
    (remove_dicom_fields : option (list string)) : M unit :=
  let* files := lift (expand_inputs stat input_files []) in
  try_except_raise (fun _ => true) (dicom2json files remove_dicom_fields).

(** How the process ends: an exit code, or an exception nobody handles. *)
Inductive outcome : Type :=
  | Exit (code : Z)
  | Unhandled (e : exn).

(** The [if __name__ == "__main__":] block: [exit(0)] after [main()], and
    for a [ValueError] [logger.exception(error)] then [exit(1)]. *)
Definition script (stat : Path -> path_kind) (input_files : list Path)
    (remove_dicom_fields : option (list string)) (w : World) : outcome * World :=
  match main stat input_files remove_dicom_fields w with
  | (inl _, w') => (Exit 0, w')
  | (inr (ValueError msg), w') =>
      (Exit 1, {| fs := fs w'; trace := (trace w' ++ [Logged ERROR msg])%list |})
  | (inr e, w') => (Unhandled e, w')
  end.

End Converter.

(** ** A concrete environment and sample files *)

Module Demo.

(** Tags of the keywords the samples use; any other keyword is keyed by
    itself. *)
Definition demo_key (keyword : string) : string :=
  if String.eqb keyword "Rows" then "00280010"
  else if String.eqb keyword "Columns" then "00280011"
  else if String.eqb keyword "BitsStored" then "00280101"
  else if String.eqb keyword "PixelRepresentation" then "00280103"
  else if String.eqb keyword "PixelData" then "7FE00010"
  else if String.eqb keyword "PatientName" then "00100010"
  else keyword.

Definition demo_element (keyword : string) (v : value) : json.t :=
  match v with
  | VNone => json.JObj []
  | VInt z => json.JObj [("Value", json.JArr [json.JInt z])]
  | VDec m e => json.JObj [("Value", json.JArr [json.JReal m e])]
  | VStr s => json.JObj [("Value", json.JArr [json.JStr s])]
  | VBytes b =>
      json.JObj [("Value", json.JArr (List.map (fun x => json.JInt (np.byte_val x)) b))]
  | VObject _ => json.JNull
  end.

(** Some names of pydicom's [Dataset] class: dictionary methods, all
    true as objects. *)
Definition demo_attribute (name : string) : option bool :=
  if String.eqb name "keys" || String.eqb name "values" || String.eqb name "items"
  then Some true else None.

#[global] Instance env : Env := {|
  here := {| parent := "/opt"; name := "dicomjson" |};
  json_key := demo_key;
  json_element := demo_element;
  byteorder := np.Little;
  dataset_attribute := demo_attribute;
  pixel_keywords_are_elements :=
    ltac:(intros k [<- | [<- | [<- | [<- | []]]]]; reflexivity)
|}.

Definition bytes_of (l : list Z) : list byte :=
  List.map (fun z => default "000"%byte (Byte.of_N (Z.to_N z))) l.

Definition frame (rows columns bits_stored : Z) (pixels : list Z) : Dataset :=
  {| file_meta := {["TransferSyntaxUID" := VStr "1.2.840.10008.1.2.1"]};
     elements := <["Rows" := VInt rows]> (<["Columns" := VInt columns]>
                   (<["BitsStored" := VInt bits_stored]>
                     (<["PixelData" := VBytes (bytes_of pixels)]>
                       {["PatientName" := VStr "DOE^JOHN"]}))) |}.

Definition scan : Path := {| parent := "/data"; name := "scan.dcm" |}.

Definition world_of (ds : Dataset) : World :=
  {| fs := {[str scan := DicomFile ds]}; trace := [] |}.

(** A 2x2 frame of 8-bit samples. *)
Definition valid_frame : Dataset := frame 2 2 8 [10; 20; 30; 40].

(** The same frame with its buffer cut to three bytes. *)
Definition truncated_frame : Dataset := frame 2 2 8 [10; 20; 30].

(** Rows = 0 and a zero-length buffer: exactly 0*5*(8/8) bytes. *)
Definition empty_frame : Dataset := frame 0 5 8 [].

(** BitsStored = 12 with a three-byte buffer. *)
Definition odd_depth_frame : Dataset := frame 2 2 12 [10; 20; 30].

(** BitsStored = 12 and a zero-length PixelData element. *)
Definition odd_depth_no_pixels : Dataset := frame 2 2 12 [].

(** The 2x2 frame without its Rows element. *)
Definition no_rows_frame : Dataset :=
  {| file_meta := file_meta valid_frame;
     elements := delete "Rows" (elements valid_frame) |}.

(** The 2x2 frame with PixelRepresentation = 0 (unsigned samples). *)
Definition unsigned_frame : Dataset :=
  {| file_meta := file_meta valid_frame;
     elements := <["PixelRepresentation" := VInt 0]> (elements valid_frame) |}.

Definition second : Path := {| parent := "/data"; name := "second.dcm" |}.

(** Two inputs: a valid frame and a file without Rows. *)
Definition two_files : World :=
  {| fs := <[str second := DicomFile no_rows_frame]>
             {[str scan := DicomFile valid_frame]};
     trace := [] |}.

(** An environment that keys every member by the keyword itself. *)
Definition keyword_env : Env := {|
  here := {| parent := "/opt"; name := "dicomjson" |};
  json_key := fun keyword => keyword;
  json_element := demo_element;
  byteorder := np.Little;
  dataset_attribute := demo_attribute;
  pixel_keywords_are_elements :=
    ltac:(intros k [<- | [<- | [<- | [<- | []]]]]; reflexivity)
|}.

(** Two files of one series, told apart by a number before the suffix. *)
Definition slice1 : Path := {| parent := "/data"; name := "scan.1.dcm" |}.
Definition slice2 : Path := {| parent := "/data"; name := "scan.2.dcm" |}.

(** A file whose stem is a single dot. *)
Definition dotted : Path := {| parent := "/data"; name := "..dcm" |}.

Definition notes : Path := {| parent := "/data"; name := "notes.txt" |}.
Definition folder : Path := {| parent := "/data"; name := "study" |}.
Definition nowhere : Path := {| parent := "/data"; name := "nowhere.dcm" |}.

(** The valid frame at [scan], a text file at [notes], and privately
    readable data at [second]. *)
Definition mixed_files : World :=
  {| fs := <[str notes := OtherFile]>
             (<[str second := Unreadable]> {[str scan := DicomFile valid_frame]});
     trace := [] |}.

(** The second file of the series, on its own. *)
Definition series : World :=
  {| fs := {[str slice2 := DicomFile valid_frame]}; trace := [] |}.

(** The item the valid frame at [scan] gets. *)
Definition scan_item : DicomConvertedData :=
  mkConverted (Some "/opt/dicomjson/output/scan.png") "scan.dcm"
    "/opt/dicomjson/output/scan.json".

(** What the file system reports for the sample paths: [folder] lists two
    DICOM files and one that is not. *)
Definition sample_stat (p : Path) : path_kind :=
  if String.eqb (str p) (str nowhere) then Missing
  else if String.eqb (str p) (str folder)
  then Directory ["a.dcm"; "readme.txt"; "b.dcm"]
  else if String.eqb (str p) "/dev/null" then Special
  else RegularFile.

End Demo.


(** ** What a run leaves behind *)

Section Observations.

Context `{Env}.

(** [DEFAULT_OUTPUT_DIR / input_file.stem] *)
Definition output_filepath (input_file : Path) : Path :=
  joinpath DEFAULT_OUTPUT_DIR (stem input_file).

(** The path next to [p] that carries the given suffix. *)
Definition sibling (p : Path) (suffix : string) : Path :=
  {| parent := parent p; name := stem_of (name p) ++ suffix |}.

Definition dataset_path (input_file : Path) : string :=
  str (sibling (output_filepath input_file) JsonConstants.SUFFIX).

Definition image_path (input_file : Path) : string :=
  str (sibling (output_filepath input_file) PngConstants.SUFFIX).

Definition template_path : string :=
  str (sibling (joinpath DEFAULT_OUTPUT_DIR "_dicom2json") JsonConstants.SUFFIX).

(** The names the removal loop visits. *)
Definition names_of (remove_dicom_fields : option (list string)) : list string :=
  default [] remove_dicom_fields.

(** The dataset the removal loop ends with, when it runs to its end. *)
Fixpoint redacted (names : list string) (ds : Dataset) : Dataset :=
  match names with
  | [] => ds
  | n :: rest =>
      if truthy (get ds n)
      then redacted rest {| file_meta := file_meta ds;
                            elements := delete n (elements ds) |}
      else redacted rest ds
  end.

Definition unrecognized (field : string) : event :=
  Logged WARNING ("Unrecognized DICOM field named '" ++ field ++ "'").

(** The warnings the removal loop logs, in order, when it runs to its end. *)
Fixpoint redaction_warnings (names : list string) (ds : Dataset) : list event :=
  match names with
  | [] => []
  | n :: rest =>
      if truthy (get ds n)
      then redaction_warnings rest {| file_meta := file_meta ds;
                                      elements := delete n (elements ds) |}
      else unrecognized n :: redaction_warnings rest ds
  end.

(** The file written for a dataset. *)
Definition document_file (ds : Dataset) : file :=
  JsonFile (my_json_dumps (dataset_document ds)).

Definition metadata_file (req : option (list string)) (ds : Dataset) : file :=
  JsonFile (my_json_dumps (dataset_document (redacted (names_of req) ds))).

(** Events of one conversion up to and including the metadata write. *)
Definition metadata_events (input_file : Path) (req : option (list string))
    (ds : Dataset) : list event :=
  (redaction_warnings (names_of req) ds ++
   [Written (dataset_path input_file) (metadata_file req ds)])%list.

(** The world right after the metadata document of [input_file] is
    written. *)
Definition after_metadata (input_file : Path) (req : option (list string))
    (ds : Dataset) (w : World) : World :=
  {| fs := <[dataset_path input_file := metadata_file req ds]> (fs w);
     trace := (trace w ++ metadata_events input_file req ds)%list |}.

Definition add_event (e : event) (w : World) : World :=
  {| fs := fs w; trace := (trace w ++ [e])%list |}.

Definition missing_fields_warning (input_file : Path) : event :=
  Logged WARNING
    (str (resolve input_file) ++
     " has no Rows or Columns or BitsStored or PixelData DICOM fields").

Definition size_error (input_file : Path) : event :=
  Logged ERROR (str (resolve input_file) ++ " buffer size is not consistent").

Definition unsupported_bits (bits_stored : Z) : exn :=
  ValueError ("Unrecognized DICOM BitsStored value '" ++ str_of_int bits_stored ++ "'").

(** The item a conversion of [input_file] appends. *)
Definition entry (input_file : Path) (img : option string) : DicomConvertedData :=
  mkConverted img (name input_file) (dataset_path input_file).

(** An event that writes a JSON array: only the manifest is one. *)
Definition writes_template (e : event) : bool :=
  match e with
  | Written _ (JsonFile (json.Rendered _ (json.JArr _))) => true
  | _ => false
  end.

Definition writes_image (e : event) : bool :=
  match e with
  | Written _ (PngFile _) => true
  | _ => false
  end.

Definition logs_error (e : event) : bool :=
  match e with
  | Logged ERROR _ => true
  | _ => false
  end.

(** The dtype chosen for a supported bit depth. *)
Definition dtype_of (bits_stored : Z) : np.dtype :=
  if bits_stored =? 8 then np.uint8 else np.uint16.

(** A manifest entry as it stands in the written document (keys sorted). *)
Definition manifest_entry (data : DicomConvertedData) : json.t :=
  json.JObj [("image", json_of_option (image data));
             ("output", json.JStr (output data));
             ("template", json.JStr (template data))].

(** The world after [content] is written at [path]. *)
Definition written (path : string) (content : file) (w : World) : World :=
  {| fs := <[path := content]> (fs w);
     trace := (trace w ++ [Written path content])%list |}.

(** The array extracted from a frame of [rows] by [columns] samples of
    [bits_stored] bits. *)
Definition frame_image (rows columns bits_stored : Z) (buffer : list byte) : np.ndarray :=
  {| np.array_dtype := dtype_of bits_stored;
     np.array_rows := np.reshape (Z.to_nat rows) (Z.to_nat columns)
                        (np.samples byteorder (dtype_of bits_stored) buffer) |}.

(** From [w] to [w'] the trace only grew, and by no write of the
    manifest. *)
Definition no_template_written (w w' : World) : Prop :=
  exists evs : list event,
    trace w' = (trace w ++ evs)%list /\
    Forall (fun e => writes_template e = false) evs.

(** The item of file [f] is one of the two the converter can append. *)
Definition entry_of (f : Path) (e : DicomConvertedData) : Prop :=
  e = entry f None \/ e = entry f (Some (image_path f)).

(** The world once the batch loop has announced [input_file]. *)
Definition announced (input_file : Path) (w : World) : World :=
  add_event (Logged DEBUG ("Convert " ++ str (resolve input_file))) w.





(** The JSON document a path holds, if it holds one. *)
Definition document_at (w : World) (path : string) : option json.t :=
  match fs w !! path with
  | Some (JsonFile content) => Some (json.doc_of content)
  | _ => None
  end.

(** The member the written document has for one element: the key of its
    keyword and its encoding with sorted keys. *)
Definition encoded (kv : string * value) : string * json.t :=
  (json_key (fst kv), json.sorted (json_element (fst kv) (snd kv))).

(** The files [main] hands to [dicom2json] for one argument. *)
Definition expansion (stat : Path -> path_kind) (input_filepath : Path) : list Path :=
  match stat input_filepath with
  | RegularFile => [input_filepath]
  | Directory listing => glob_dicom input_filepath listing
  | _ => []
  end.

(** Names [getattr] answers from the dataset object itself rather than
    from an element: [file_meta] and the names of the class. *)
Definition is_attribute (name : string) : bool :=
  String.eqb name "file_meta" ||
  match dataset_attribute name with Some _ => true | None => false end.

(** The request names elements only, no attribute of the object. *)
Definition no_attribute_named (req : option (list string)) : Prop :=
  forall n, In n (names_of req) -> is_attribute n = false.

(** Events that are warnings of the removal loop. *)
Definition only_warnings (evs : list event) : Prop :=
  Forall (fun ev => exists n, ev = unrecognized n) evs.

(** The removal loop ran to its end from [w]. *)
Definition loop_done (req : option (list string)) (ds : Dataset) (w : World) : Prop :=
  remove_requested req ds w
  = (inl (redacted (names_of req) ds),
     {| fs := fs w;
        trace := (trace w ++ redaction_warnings (names_of req) ds)%list |}).

(** ** Basic facts *)

Lemma try_except_raise_run {A} (handled : exn -> bool) (body : M A) (w : World) :
  try_except_raise handled body w = body w.
Proof.
  unfold try_except_raise.
  destruct (body w) as [[a | e] w']; [reflexivity |].
  destruct (handled e); reflexivity.
Qed.

Lemma output_dir_name : name DEFAULT_OUTPUT_DIR = "output".
Proof. reflexivity. Qed.

Lemma output_filepath_named (input_file : Path) :
  String.eqb (name (output_filepath input_file)) EmptyString = false.
Proof.
  unfold output_filepath, joinpath.
  destruct (String.eqb (stem input_file) EmptyString) eqn:E;
    destruct (String.eqb (stem input_file) ".") eqn:E'; cbn [orb];
    try reflexivity.
  exact E.
Qed.

Lemma with_suffix_output (input_file : Path) (suffix : string) :
  with_suffix (output_filepath input_file) suffix
  = inl (sibling (output_filepath input_file) suffix).
Proof.
  unfold with_suffix. rewrite output_filepath_named. reflexivity.
Qed.

Lemma with_suffix_template :
  with_suffix (joinpath DEFAULT_OUTPUT_DIR "_dicom2json") JsonConstants.SUFFIX
  = inl (sibling (joinpath DEFAULT_OUTPUT_DIR "_dicom2json") JsonConstants.SUFFIX).
Proof. reflexivity. Qed.

Lemma attribute_none (ds : Dataset) (k : string) :
  is_attribute k = false -> attribute ds k = None.
Proof.
  unfold is_attribute, attribute. intros Hk.
  apply orb_false_iff in Hk as [-> Hk].
  destruct (dataset_attribute k); [discriminate | reflexivity].
Qed.

Lemma get_element (ds : Dataset) (k : string) :
  is_attribute k = false -> get ds k = default VNone (elements ds !! k).
Proof. intros Hk. unfold get. rewrite (attribute_none ds k Hk). reflexivity. Qed.

Lemma get_attribute (ds : Dataset) (k : string) :
  is_attribute k = true -> exists truth, get ds k = VObject truth.
Proof.
  unfold is_attribute, get, attribute. intros Hk.
  destruct (String.eqb k "file_meta"); [eauto |].
  destruct (dataset_attribute k) as [truth |]; [| discriminate].
  exists truth. reflexivity.
Qed.


Lemma truthy_get_present (ds : Dataset) (k : string) :
  is_attribute k = false ->
  truthy (get ds k) = true -> exists v, elements ds !! k = Some v.
Proof.
  intros Hk. rewrite (get_element ds k Hk).
  destruct (elements ds !! k) as [v |]; [eauto | discriminate].
Qed.

Lemma get_absent (ds : Dataset) (k : string) :
  is_attribute k = false ->
  elements ds !! k = None -> get ds k = VNone.
Proof. intros Hk E. rewrite (get_element ds k Hk), E. reflexivity. Qed.

Lemma truthy_absent_is_attribute (ds : Dataset) (n : string) :
  truthy (get ds n) = true -> elements ds !! n = None -> is_attribute n = true.
Proof.
  intros T Hv. destruct (is_attribute n) eqn:E; [reflexivity |].
  rewrite (get_absent ds n E Hv) in T. discriminate.
Qed.

Lemma remove_fields_run (names : list string) (ds : Dataset) (w : World) :
  (forall n, In n names -> is_attribute n = false) ->
  remove_fields names ds w
  = (inl (redacted names ds),
     {| fs := fs w; trace := (trace w ++ redaction_warnings names ds)%list |}).
Proof.
  revert ds w. induction names as [| n rest IH]; intros ds w Hnames; simpl.
  - unfold ret. rewrite app_nil_r. destruct w; reflexivity.
  - assert (Hrest : forall m, In m rest -> is_attribute m = false)
      by (intros m Hm; apply Hnames; right; exact Hm).
    unfold bind. destruct (truthy (get ds n)) eqn:T.
    + destruct (truthy_get_present ds n (Hnames n (or_introl eq_refl)) T) as [v Hv].
      unfold lift, pop. rewrite Hv. apply IH. exact Hrest.
    + unfold logger, ret. simpl. rewrite IH by exact Hrest. simpl.
      rewrite <- app_assoc. reflexivity.
Qed.

Lemma remove_requested_run (req : option (list string)) (ds : Dataset) (w : World) :
  no_attribute_named req -> loop_done req ds w.
Proof.
  unfold no_attribute_named, loop_done.
  destruct req as [[| n ns] |]; simpl; intros Hreq.
  - unfold ret. rewrite app_nil_r. destruct w; reflexivity.
  - apply (remove_fields_run (n :: ns)). exact Hreq.
  - unfold ret. rewrite app_nil_r. destruct w; reflexivity.
Qed.

(** The loop either runs to its end or stops at a [pop] of a name that is
    the keyword of no element: an attribute of the object that is true; up
    to there it has only logged warnings. *)
Lemma remove_fields_outcome (names : list string) (ds : Dataset) :
  (forall w, remove_fields names ds w
             = (inl (redacted names ds),
                {| fs := fs w;
                   trace := (trace w ++ redaction_warnings names ds)%list |})) \/
  (exists k evs, In k names /\ is_attribute k = true /\ only_warnings evs /\
     forall w, remove_fields names ds w
               = (inr (KeyError k), {| fs := fs w; trace := (trace w ++ evs)%list |})).
Proof.
  revert ds. induction names as [| n rest IH]; intros ds.
  - left. intros w. simpl. unfold ret. rewrite app_nil_r. destruct w; reflexivity.
  - simpl. destruct (truthy (get ds n)) eqn:T.
    + destruct (elements ds !! n) as [v |] eqn:Hv.
      * destruct (IH {| file_meta := file_meta ds; elements := delete n (elements ds) |})
          as [Hdone | (k & evs & Hk & Hattr & Hevs & Hstop)].
        -- left. intros w. unfold bind, lift, pop. rewrite Hv. apply Hdone.
        -- right. exists k, evs. split; [right; exact Hk |].
           split; [exact Hattr |]. split; [exact Hevs |].
           intros w. unfold bind, lift, pop. rewrite Hv. apply Hstop.
      * right. exists n, []. split; [left; reflexivity |].
        split; [exact (truthy_absent_is_attribute ds n T Hv) |].
        split; [constructor |].
        intros w. unfold bind, lift, pop. rewrite Hv.
        rewrite app_nil_r. destruct w; reflexivity.
    + destruct (IH ds) as [Hdone | (k & evs & Hk & Hattr & Hevs & Hstop)].
      * left. intros w. unfold bind, logger, ret. rewrite Hdone. cbn [fs trace].
        rewrite <- app_assoc. reflexivity.
      * right. exists k, (unrecognized n :: evs). split; [right; exact Hk |].
        split; [exact Hattr |].
        split; [constructor; [eexists; reflexivity | exact Hevs] |].
        intros w. unfold bind, logger, ret. rewrite Hstop. cbn [fs trace].
        rewrite <- app_assoc. reflexivity.
Qed.


Lemma remove_requested_outcome (req : option (list string)) (ds : Dataset) :
  (forall w, loop_done req ds w) \/
  (exists k evs, In k (names_of req) /\ is_attribute k = true /\ only_warnings evs /\
     forall w, remove_requested req ds w
               = (inr (KeyError k), {| fs := fs w; trace := (trace w ++ evs)%list |})).
Proof.
  unfold loop_done.
  destruct req as [[| n ns] |]; cbn [remove_requested names_of default].
  - left. intros w. simpl. unfold ret. rewrite app_nil_r. destruct w; reflexivity.
  - apply (remove_fields_outcome (n :: ns)).
  - left. intros w. simpl. unfold ret. rewrite app_nil_r. destruct w; reflexivity.
Qed.


(** ** One conversion, case by case *)


Lemma lengths_guard (rows columns pixel_data bits_stored : value) :
  truthy pixel_data && truthy rows && truthy columns && truthy bits_stored
  = filled rows columns pixel_data bits_stored.
Proof.
  unfold filled.
  destruct (truthy pixel_data), (truthy rows), (truthy columns),
    (truthy bits_stored); reflexivity.
Qed.

Ltac open_convert Hfs :=
  unfold convert_dicom_to_data; rewrite try_except_raise_run;
  unfold bind at 1; unfold dcmread; rewrite Hfs; rewrite lengths_guard.
Ltac to_loop f :=
  fold (output_filepath f);
  rewrite !with_suffix_output;
  unfold bind at 1; unfold lift at 1;
  unfold bind at 1; unfold lift at 1;
  unfold bind at 1.
Ltac to_metadata f Hloop :=
  to_loop f; rewrite Hloop;
  unfold bind at 1; unfold write_file at 1; cbn [fs trace].
Ltac close_world :=
  unfold written, add_event, after_metadata, metadata_events, entry, dataset_path,
    image_path, metadata_file, document_file, missing_fields_warning, size_error,
    unsupported_bits;
  cbn [fs trace]; rewrite <- ?app_assoc; try reflexivity.
Ltac typed_lengths :=
  cbn [py_len py_int];
  unfold bind at 1; unfold bind at 1; unfold lift at 1;
  unfold bind at 1; unfold lift at 1;
  unfold bind at 1; unfold lift at 1;
  unfold bind at 1; unfold lift at 1; unfold ret at 1.

Lemma int_expected_length R C B :
  B = 8 \/ B = 16 -> int_of_float (expected_length R C B) = R * C * (B / 8).
Proof.
  intros [-> | ->]; unfold int_of_float, expected_length;
    cbn [Qnum Qden Qmult Qdiv Qinv inject_Z].
  - change (Z.pos (1 * (1 * 8))) with 8. change (8 `div` 8) with 1.
    change (8 * 1) with 8. rewrite Z.quot_mul by lia. lia.
  - change (Z.pos (1 * (1 * 8))) with 8. change (16 `div` 8) with 2.
    change (16 * 1) with 16.
    replace (R * C * 16) with (R * C * 2 * 8) by lia.
    rewrite Z.quot_mul by lia. reflexivity.
Qed.

Lemma convert_not_filled_at f req acc w ds ds' w' :
  fs w !! str f = Some (DicomFile ds) ->
  remove_requested req ds w = (inl ds', w') ->
  filled (get ds "Rows") (get ds "Columns") (get ds "PixelData") (get ds "BitsStored") = false ->
  convert_dicom_to_data f req acc w
  = (inl (acc ++ [entry f None])%list,
     add_event (missing_fields_warning f) (written (dataset_path f) (document_file ds') w')).
Proof.
  intros Hfs Hloop Hfill.
  open_convert Hfs. rewrite Hfill.
  unfold bind at 1. unfold ret at 1.
  to_metadata f Hloop.
  unfold bind, logger, ret. cbn [fs trace].
  close_world.
Qed.

Lemma filled_typed R C B buf :
  R <> 0 -> C <> 0 -> B <> 0 -> buf <> [] ->
  filled (VInt R) (VInt C) (VBytes buf) (VInt B) = true.
Proof.
  intros HR HC HB Hb. unfold filled. simpl.
  destruct buf; [congruence |].
  destruct (Z.eqb_spec R 0), (Z.eqb_spec C 0), (Z.eqb_spec B 0); simpl; congruence.
Qed.

Lemma convert_bad_bits_at f req acc w ds ds' w' R C B buf :
  fs w !! str f = Some (DicomFile ds) ->
  remove_requested req ds w = (inl ds', w') ->
  get ds "Rows" = VInt R -> get ds "Columns" = VInt C ->
  get ds "BitsStored" = VInt B -> get ds "PixelData" = VBytes buf ->
  filled (VInt R) (VInt C) (VBytes buf) (VInt B) = true ->
  B <> 8 -> B <> 16 ->
  convert_dicom_to_data f req acc w
  = (inr (unsupported_bits B), written (dataset_path f) (document_file ds') w').
Proof.
  intros Hfs Hloop HR HC HB HP Hfill H8 H16.
  open_convert Hfs. rewrite HR, HC, HB, HP, Hfill.
  typed_lengths. to_metadata f Hloop.
  unfold bind at 1. unfold lift at 1.
  destruct (Z.eqb_spec B 8); [congruence |].
  destruct (Z.eqb_spec B 16); [congruence |].
  unfold bind at 1. unfold raise.
  close_world.
Qed.

Lemma convert_mismatch_at f req acc w ds ds' w' R C B buf :
  fs w !! str f = Some (DicomFile ds) ->
  remove_requested req ds w = (inl ds', w') ->
  get ds "Rows" = VInt R -> get ds "Columns" = VInt C ->
  get ds "BitsStored" = VInt B -> get ds "PixelData" = VBytes buf ->
  filled (VInt R) (VInt C) (VBytes buf) (VInt B) = true ->
  B = 8 \/ B = 16 ->
  Z.of_nat (length buf) <> R * C * (B / 8) ->
  convert_dicom_to_data f req acc w
  = (inl (acc ++ [entry f None])%list,
     add_event (size_error f) (written (dataset_path f) (document_file ds') w')).
Proof.
  intros Hfs Hloop HR HC HB HP Hfill HB' Hlen.
  open_convert Hfs. rewrite HR, HC, HB, HP, Hfill.
  typed_lengths. to_metadata f Hloop.
  unfold bind at 1. unfold lift at 1.
  rewrite (int_expected_length R C B HB').
  destruct (Z.eqb_spec (Z.of_nat (length buf)) (R * C * (B / 8))); [congruence |].
  cbn [negb].
  destruct HB' as [-> | ->]; cbn [Z.eqb Pos.eqb];
    unfold bind, ret, logger; cbn [fs trace]; close_world.
Qed.

Lemma convert_no_dataset f req acc w :
  (forall ds, fs w !! str f <> Some (DicomFile ds)) ->
  exists e, handled_errors e = true /\
            convert_dicom_to_data f req acc w = (inr e, w).
Proof.
  intros Hno. unfold convert_dicom_to_data. rewrite try_except_raise_run.
  unfold bind at 1. unfold dcmread.
  destruct (fs w !! str f) as [[ds | | | |] |];
    try (eexists; split; [| reflexivity]; reflexivity).
  exfalso. apply (Hno ds). reflexivity.
Qed.

Lemma convert_ill_typed f acc w ds :
  fs w !! str f = Some (DicomFile ds) ->
  filled (get ds "Rows") (get ds "Columns") (get ds "PixelData") (get ds "BitsStored") = true ->
  (forall R C B buf, ~ (get ds "Rows" = VInt R /\ get ds "Columns" = VInt C /\
                        get ds "BitsStored" = VInt B /\ get ds "PixelData" = VBytes buf)) ->
  exists msg, forall req, convert_dicom_to_data f req acc w = (inr (TypeError msg), w).
Proof.
  intros Hfs Hfill Hty.
  destruct (get ds "PixelData") as [| | | | buf |] eqn:HP;
    try (eexists; intros req; open_convert Hfs; rewrite HP, Hfill;
         cbv beta iota delta [bind lift ret py_len py_int]; reflexivity).
  destruct (get ds "Rows") as [| R | | | |] eqn:HR;
    try (eexists; intros req; open_convert Hfs; rewrite HP, HR, Hfill;
         cbv beta iota delta [bind lift ret py_len py_int]; reflexivity).
  destruct (get ds "Columns") as [| C | | | |] eqn:HC;
    try (eexists; intros req; open_convert Hfs; rewrite HP, HR, HC, Hfill;
         cbv beta iota delta [bind lift ret py_len py_int]; reflexivity).
  destruct (get ds "BitsStored") as [| B | | | |] eqn:HB;
    try (eexists; intros req; open_convert Hfs; rewrite HP, HR, HC, HB, Hfill;
         cbv beta iota delta [bind lift ret py_len py_int]; reflexivity).
  exfalso. apply (Hty R C B buf). auto.
Qed.

Lemma convert_ill_typed_at f req acc w ds :
  fs w !! str f = Some (DicomFile ds) ->
  filled (get ds "Rows") (get ds "Columns") (get ds "PixelData") (get ds "BitsStored") = true ->
  (forall R C B buf, ~ (get ds "Rows" = VInt R /\ get ds "Columns" = VInt C /\
                        get ds "BitsStored" = VInt B /\ get ds "PixelData" = VBytes buf)) ->
  exists msg, convert_dicom_to_data f req acc w = (inr (TypeError msg), w).
Proof.
  intros Hfs Hfill Hty.
  destruct (convert_ill_typed f acc w ds Hfs Hfill Hty) as (msg & He).
  exists msg. apply He.
Qed.

(** A removal loop that stops ends the conversion there. *)
Lemma convert_stops_unfilled f req acc w ds e w' :
  fs w !! str f = Some (DicomFile ds) ->
  remove_requested req ds w = (inr e, w') ->
  filled (get ds "Rows") (get ds "Columns") (get ds "PixelData") (get ds "BitsStored") = false ->
  convert_dicom_to_data f req acc w = (inr e, w').
Proof.
  intros Hfs Hstop Hfill.
  open_convert Hfs. rewrite Hfill.
  unfold bind at 1. unfold ret at 1.
  to_loop f. rewrite Hstop. reflexivity.
Qed.

Lemma convert_stops_typed f req acc w ds R C B buf e w' :
  fs w !! str f = Some (DicomFile ds) ->
  remove_requested req ds w = (inr e, w') ->
  get ds "Rows" = VInt R -> get ds "Columns" = VInt C ->
  get ds "BitsStored" = VInt B -> get ds "PixelData" = VBytes buf ->
  filled (VInt R) (VInt C) (VBytes buf) (VInt B) = true ->
  convert_dicom_to_data f req acc w = (inr e, w').
Proof.
  intros Hfs Hstop HR HC HB HP Hfill.
  open_convert Hfs. rewrite HR, HC, HB, HP, Hfill.
  typed_lengths. to_loop f. rewrite Hstop. reflexivity.
Qed.

Lemma convert_match_at f req acc w ds ds' w' R C B buf :
  fs w !! str f = Some (DicomFile ds) ->
  remove_requested req ds w = (inl ds', w') ->
  get ds "Rows" = VInt R -> get ds "Columns" = VInt C ->
  get ds "BitsStored" = VInt B -> get ds "PixelData" = VBytes buf ->
  filled (VInt R) (VInt C) (VBytes buf) (VInt B) = true ->
  B = 8 \/ B = 16 ->
  Z.of_nat (length buf) = R * C * (B / 8) ->
  convert_dicom_to_data f req acc w
  = match np.ndarray_of byteorder R C (dtype_of B) buf with
    | inl img =>
        (inl (acc ++ [entry f (Some (image_path f))])%list,
         written (image_path f) (PngFile img) (written (dataset_path f) (document_file ds') w'))
    | inr e => (inr e, written (dataset_path f) (document_file ds') w')
    end.
Proof.
  intros Hfs Hloop HR HC HB HP Hfill HB' Hlen.
  open_convert Hfs. rewrite HR, HC, HB, HP, Hfill.
  typed_lengths. to_metadata f Hloop.
  unfold bind at 1. unfold lift at 1.
  rewrite (int_expected_length R C B HB').
  destruct (Z.eqb_spec (Z.of_nat (length buf)) (R * C * (B / 8))); [| congruence].
  cbn [negb].
  destruct HB' as [-> | ->]; cbn [Z.eqb Pos.eqb];
    change np.uint8 with (dtype_of 8) in *; change np.uint16 with (dtype_of 16) in *;
    unfold bind at 1; unfold ret at 1;
    unfold bind at 1; unfold lift at 1;
    unfold bind at 1; unfold lift at 1;
    unfold bind at 1; unfold lift at 1;
    match goal with |- context [np.ndarray_of ?o ?r ?c ?d ?b] =>
      destruct (np.ndarray_of o r c d b) as [img | err] end;
    unfold bind, ret, write_file; cbn [fs trace]; close_world.
Qed.

Lemma written_after_loop f req ds w :
  written (dataset_path f) (document_file (redacted (names_of req) ds))
    {| fs := fs w;
       trace := (trace w ++ redaction_warnings (names_of req) ds)%list |}
  = after_metadata f req ds w.
Proof.
  unfold written, after_metadata, metadata_events, metadata_file, document_file.
  cbn [fs trace]. rewrite <- app_assoc. reflexivity.
Qed.

Lemma convert_not_filled f req acc w ds :
  fs w !! str f = Some (DicomFile ds) ->
  loop_done req ds w ->
  filled (get ds "Rows") (get ds "Columns") (get ds "PixelData") (get ds "BitsStored") = false ->
  convert_dicom_to_data f req acc w
  = (inl (acc ++ [entry f None])%list,
     add_event (missing_fields_warning f) (after_metadata f req ds w)).
Proof.
  intros Hfs Hloop Hfill.
  rewrite (convert_not_filled_at f req acc w ds _ _ Hfs Hloop Hfill).
  rewrite written_after_loop. reflexivity.
Qed.

Lemma convert_bad_bits f req acc w ds R C B buf :
  fs w !! str f = Some (DicomFile ds) ->
  loop_done req ds w ->
  get ds "Rows" = VInt R -> get ds "Columns" = VInt C ->
  get ds "BitsStored" = VInt B -> get ds "PixelData" = VBytes buf ->
  filled (VInt R) (VInt C) (VBytes buf) (VInt B) = true ->
  B <> 8 -> B <> 16 ->
  convert_dicom_to_data f req acc w
  = (inr (unsupported_bits B), after_metadata f req ds w).
Proof.
  intros Hfs Hloop HR HC HB HP Hfill H8 H16.
  rewrite (convert_bad_bits_at f req acc w ds _ _ R C B buf Hfs Hloop HR HC HB HP
             Hfill H8 H16).
  rewrite written_after_loop. reflexivity.
Qed.

Lemma convert_mismatch f req acc w ds R C B buf :
  fs w !! str f = Some (DicomFile ds) ->
  loop_done req ds w ->
  get ds "Rows" = VInt R -> get ds "Columns" = VInt C ->
  get ds "BitsStored" = VInt B -> get ds "PixelData" = VBytes buf ->
  filled (VInt R) (VInt C) (VBytes buf) (VInt B) = true ->
  B = 8 \/ B = 16 ->
  Z.of_nat (length buf) <> R * C * (B / 8) ->
  convert_dicom_to_data f req acc w
  = (inl (acc ++ [entry f None])%list,
     add_event (size_error f) (after_metadata f req ds w)).
Proof.
  intros Hfs Hloop HR HC HB HP Hfill HB' Hlen.
  rewrite (convert_mismatch_at f req acc w ds _ _ R C B buf Hfs Hloop HR HC HB HP
             Hfill HB' Hlen).
  rewrite written_after_loop. reflexivity.
Qed.

Lemma convert_match f req acc w ds R C B buf :
  fs w !! str f = Some (DicomFile ds) ->
  loop_done req ds w ->
  get ds "Rows" = VInt R -> get ds "Columns" = VInt C ->
  get ds "BitsStored" = VInt B -> get ds "PixelData" = VBytes buf ->
  filled (VInt R) (VInt C) (VBytes buf) (VInt B) = true ->
  B = 8 \/ B = 16 ->
  Z.of_nat (length buf) = R * C * (B / 8) ->
  convert_dicom_to_data f req acc w
  = match np.ndarray_of byteorder R C (dtype_of B) buf with
    | inl img =>
        (inl (acc ++ [entry f (Some (image_path f))])%list,
         written (image_path f) (PngFile img) (after_metadata f req ds w))
    | inr e => (inr e, after_metadata f req ds w)
    end.
Proof.
  intros Hfs Hloop HR HC HB HP Hfill HB' Hlen.
  rewrite (convert_match_at f req acc w ds _ _ R C B buf Hfs Hloop HR HC HB HP
             Hfill HB' Hlen).
  rewrite written_after_loop. reflexivity.
Qed.

Lemma filled_valid R C B buf :
  1 <= R -> 1 <= C -> B = 8 \/ B = 16 ->
  Z.of_nat (length buf) = R * C * (B / 8) ->
  filled (VInt R) (VInt C) (VBytes buf) (VInt B) = true.
Proof.
  intros HR1 HC1 HB' Hlen. unfold filled. cbn [truthy].
  destruct (Z.eqb_spec R 0); [lia |]. destruct (Z.eqb_spec C 0); [lia |].
  destruct (Z.eqb_spec B 0); [lia |].
  destruct buf; [| reflexivity]. exfalso.
  assert (1 <= B / 8) by (destruct HB' as [-> | ->]; discriminate).
  change (Z.of_nat (length (@nil byte))) with 0 in Hlen. nia.
Qed.

Lemma ndarray_of_valid R C B buf :
  1 <= R -> 1 <= C -> B = 8 \/ B = 16 ->
  Z.of_nat (length buf) = R * C * (B / 8) ->
  np.ndarray_of byteorder R C (dtype_of B) buf = inl (frame_image R C B buf).
Proof.
  intros HR1 HC1 HB' Hlen. unfold np.ndarray_of.
  destruct (Z.ltb_spec R 0); [lia |]. destruct (Z.ltb_spec C 0); [lia |].
  cbn [orb].
  destruct (Z.ltb_spec (Z.of_nat (length buf)) (R * C * np.itemsize (dtype_of B))).
  - exfalso. assert (np.itemsize (dtype_of B) = B / 8)
      by (destruct HB' as [-> | ->]; reflexivity). lia.
  - reflexivity.
Qed.

Lemma convert_valid f req acc w ds R C B buf :
  fs w !! str f = Some (DicomFile ds) ->
  loop_done req ds w ->
  get ds "Rows" = VInt R -> get ds "Columns" = VInt C ->
  get ds "BitsStored" = VInt B -> get ds "PixelData" = VBytes buf ->
  1 <= R -> 1 <= C -> B = 8 \/ B = 16 ->
  Z.of_nat (length buf) = R * C * (B / 8) ->
  convert_dicom_to_data f req acc w
  = (inl (acc ++ [entry f (Some (image_path f))])%list,
     written (image_path f) (PngFile (frame_image R C B buf))
       (after_metadata f req ds w)).
Proof.
  intros Hfs Hloop HR HC HB HP HR1 HC1 HB' Hlen.
  rewrite (convert_match f req acc w ds R C B buf Hfs Hloop HR HC HB HP
             (filled_valid R C B buf HR1 HC1 HB' Hlen) HB' Hlen).
  rewrite (ndarray_of_valid R C B buf HR1 HC1 HB' Hlen). reflexivity.
Qed.

(** Every conversion ends in one of six ways: before the removal loop, in
    it, after the metadata write with an error, or with one of the three
    items. *)
Lemma convert_cases f req acc w :
  (exists e, (forall msg, e <> ValueError msg) /\
             convert_dicom_to_data f req acc w = (inr e, w)) \/
  exists ds, fs w !! str f = Some (DicomFile ds) /\
    ((exists k evs, In k (names_of req) /\ is_attribute k = true /\
        only_warnings evs /\
        convert_dicom_to_data f req acc w
        = (inr (KeyError k), {| fs := fs w; trace := (trace w ++ evs)%list |})) \/
     loop_done req ds w /\
     ((exists e, convert_dicom_to_data f req acc w = (inr e, after_metadata f req ds w)) \/
      convert_dicom_to_data f req acc w
        = (inl (acc ++ [entry f None])%list,
           add_event (missing_fields_warning f) (after_metadata f req ds w)) \/
      convert_dicom_to_data f req acc w
        = (inl (acc ++ [entry f None])%list,
           add_event (size_error f) (after_metadata f req ds w)) \/
      exists img, convert_dicom_to_data f req acc w
        = (inl (acc ++ [entry f (Some (image_path f))])%list,
           written (image_path f) (PngFile img) (after_metadata f req ds w)))).
Proof.
  destruct (fs w !! str f) as [[ds | | | |] |] eqn:Hfs.
  2-6: left; destruct (convert_no_dataset f req acc w) as (e & He & Hrun);
       [intros ds'; rewrite Hfs; discriminate |];
       exists e; split; [intros msg ->; discriminate | exact Hrun].
  assert (Hill : (exists msg,
                    convert_dicom_to_data f req acc w = (inr (TypeError msg), w)) ->
                 exists e, (forall msg', e <> ValueError msg') /\
                           convert_dicom_to_data f req acc w = (inr e, w)).
  { intros (msg & Hrun). exists (TypeError msg). split; [discriminate | exact Hrun]. }
  destruct (filled (get ds "Rows") (get ds "Columns") (get ds "PixelData")
              (get ds "BitsStored")) eqn:Hfill.
  2: { right. exists ds. split; [reflexivity |].
       destruct (remove_requested_outcome req ds)
         as [Hdone | (k & evs & Hk & Hattr & Hevs & Hstop)].
       - right. split; [apply Hdone |]. right. left.
         apply convert_not_filled; [assumption | apply Hdone | assumption].
       - left. exists k, evs. split; [exact Hk |]. split; [exact Hattr |].
         split; [exact Hevs |].
         apply (convert_stops_unfilled f req acc w ds _ _ Hfs (Hstop w) Hfill). }
  destruct (get ds "Rows") as [| R | | | |] eqn:HR;
    try (left; apply Hill; apply (convert_ill_typed_at f req acc w ds Hfs);
         [rewrite HR; exact Hfill
         | intros ? ? ? ? (E & _); rewrite HR in E; discriminate]).
  destruct (get ds "Columns") as [| C | | | |] eqn:HC;
    try (left; apply Hill; apply (convert_ill_typed_at f req acc w ds Hfs);
         [rewrite HR, HC; exact Hfill
         | intros ? ? ? ? (_ & E & _); rewrite HC in E; discriminate]).
  destruct (get ds "BitsStored") as [| B | | | |] eqn:HB;
    try (left; apply Hill; apply (convert_ill_typed_at f req acc w ds Hfs);
         [rewrite HR, HC, HB; exact Hfill
         | intros ? ? ? ? (_ & _ & E & _); rewrite HB in E; discriminate]).
  destruct (get ds "PixelData") as [| | | | buf |] eqn:HP;
    try (left; apply Hill; apply (convert_ill_typed_at f req acc w ds Hfs);
         [rewrite HR, HC, HB, HP; exact Hfill
         | intros ? ? ? ? (_ & _ & _ & E); rewrite HP in E; discriminate]).
  right. exists ds. split; [reflexivity |].
  destruct (remove_requested_outcome req ds)
    as [Hdone | (k & evs & Hk & Hattr & Hevs & Hstop)].
  2: { left. exists k, evs. split; [exact Hk |]. split; [exact Hattr |].
       split; [exact Hevs |].
       apply (convert_stops_typed f req acc w ds R C B buf _ _ Hfs (Hstop w));
         assumption. }
  right. split; [apply Hdone |]. pose proof (Hdone w) as Hloop.
  destruct (Z.eq_dec B 8) as [E8 | N8]; [| destruct (Z.eq_dec B 16) as [E16 | N16]].
  3: { left. eexists. apply (convert_bad_bits f req acc w ds R C B buf); assumption. }
  all: assert (HB' : B = 8 \/ B = 16) by auto.
  all: destruct (Z.eq_dec (Z.of_nat (length buf)) (R * C * (B / 8))) as [Hlen | Hlen].
  all: try (right; right; left;
            apply (convert_mismatch f req acc w ds R C B buf); assumption).
  all: rewrite (convert_match f req acc w ds R C B buf) by assumption.
  all: destruct (np.ndarray_of byteorder R C (dtype_of B) buf) as [img | e];
       [right; right; right; exists img; reflexivity | left; eexists; reflexivity].
Qed.

Lemma redaction_warnings_quiet names ds :
  Forall (fun e => writes_template e = false) (redaction_warnings names ds).
Proof.
  revert ds. induction names as [| n rest IH]; intros ds; simpl.
  - constructor.
  - destruct (truthy (get ds n)); [apply IH |].
    constructor; [reflexivity | apply IH].
Qed.

Lemma metadata_events_quiet f req ds :
  Forall (fun e => writes_template e = false) (metadata_events f req ds).
Proof.
  unfold metadata_events. apply Forall_app. split.
  - apply redaction_warnings_quiet.
  - constructor; [reflexivity | constructor].
Qed.

Lemma no_template_written_refl w : no_template_written w w.
Proof. exists []. split; [rewrite app_nil_r; reflexivity | constructor]. Qed.

Lemma no_template_written_trans w1 w2 w3 :
  no_template_written w1 w2 -> no_template_written w2 w3 ->
  no_template_written w1 w3.
Proof.
  intros (e1 & T1 & F1) (e2 & T2 & F2). exists (e1 ++ e2)%list. split.
  - rewrite T2, T1, <- app_assoc. reflexivity.
  - apply Forall_app. split; assumption.
Qed.

Lemma after_metadata_quiet f req ds w :
  no_template_written w (after_metadata f req ds w).
Proof.
  exists (metadata_events f req ds). split; [reflexivity | apply metadata_events_quiet].
Qed.

Lemma add_event_quiet e w :
  writes_template e = false -> no_template_written w (add_event e w).
Proof. intros He. exists [e]. split; [reflexivity | constructor; [exact He | constructor]]. Qed.

Lemma written_image_quiet path img w :
  no_template_written w (written path (PngFile img) w).
Proof.
  exists [Written path (PngFile img)]. split; [reflexivity |].
  constructor; [reflexivity | constructor].
Qed.

Lemma only_warnings_quiet evs w :
  only_warnings evs ->
  no_template_written w {| fs := fs w; trace := (trace w ++ evs)%list |}.
Proof.
  intros Hevs. exists evs. split; [reflexivity |].
  eapply Forall_impl; [exact Hevs |].
  intros ev (n & ->). reflexivity.
Qed.

Lemma convert_quiet f req acc w :
  no_template_written w (snd (convert_dicom_to_data f req acc w)).
Proof.
  destruct (convert_cases f req acc w)
    as [(e & _ & ->)
       | (ds & _ & [(k & evs & _ & _ & Hevs & ->)
                   | (_ & [(e & ->) | [-> | [-> | (img & ->)]]])])];
    cbn [snd].
  - apply no_template_written_refl.
  - apply only_warnings_quiet. exact Hevs.
  - apply after_metadata_quiet.
  - eapply no_template_written_trans; [apply after_metadata_quiet |].
    apply add_event_quiet. reflexivity.
  - eapply no_template_written_trans; [apply after_metadata_quiet |].
    apply add_event_quiet. reflexivity.
  - eapply no_template_written_trans; [apply after_metadata_quiet |].
    apply written_image_quiet.
Qed.

Lemma convert_returns f req acc w acc' w' :
  convert_dicom_to_data f req acc w = (inl acc', w') ->
  exists e, acc' = (acc ++ [e])%list /\ entry_of f e.
Proof.
  intros Hrun.
  destruct (convert_cases f req acc w)
    as [(e & _ & E)
       | (ds & _ & [(k & evs & _ & _ & _ & E)
                   | (_ & [(e & E) | [E | [E | (img & E)]]])])];
    rewrite E in Hrun; inversion Hrun; subst; eexists; (split; [reflexivity |]);
    unfold entry_of; auto.
Qed.

(** ** The batch *)

Lemma convert_all_app pre post req acc w :
  convert_all (pre ++ post)%list req acc w
  = match convert_all pre req acc w with
    | (inl acc', w') => convert_all post req acc' w'
    | (inr e, w') => (inr e, w')
    end.
Proof.
  revert acc w. induction pre as [| f pre IH]; intros acc w.
  - reflexivity.
  - cbn [app convert_all]. unfold bind, logger.
    destruct (convert_dicom_to_data f req acc _) as [[acc1 | e] w1].
    + apply IH.
    + reflexivity.
Qed.

Lemma convert_all_quiet files req acc w :
  no_template_written w (snd (convert_all files req acc w)).
Proof.
  revert acc w. induction files as [| f rest IH]; intros acc w.
  - apply no_template_written_refl.
  - cbn [convert_all]. unfold bind, logger.
    match goal with |- context [convert_dicom_to_data f req acc ?w0] =>
      pose proof (convert_quiet f req acc w0) as Hq;
      destruct (convert_dicom_to_data f req acc w0) as [[acc1 | e] w1] end;
      cbn [snd] in *.
    + eapply no_template_written_trans; [| apply IH].
      eapply no_template_written_trans; [| exact Hq].
      apply (add_event_quiet (Logged DEBUG _) w). reflexivity.
    + eapply no_template_written_trans; [| exact Hq].
      apply (add_event_quiet (Logged DEBUG _) w). reflexivity.
Qed.

Lemma convert_all_returns files req acc w acc' w' :
  convert_all files req acc w = (inl acc', w') ->
  exists entries, acc' = (acc ++ entries)%list /\ Forall2 entry_of files entries.
Proof.
  revert acc w. induction files as [| f rest IH]; intros acc w Hrun.
  - inversion Hrun; subst. exists []. split; [rewrite app_nil_r; reflexivity | constructor].
  - cbn [convert_all] in Hrun. unfold bind, logger in Hrun.
    destruct (convert_dicom_to_data f req acc _) as [[acc1 | e] w1] eqn:Hf;
      [| discriminate].
    destruct (convert_returns _ _ _ _ _ _ Hf) as (e & -> & He).
    destruct (IH _ _ Hrun) as (entries & -> & Hall).
    exists (e :: entries). split.
    + rewrite <- app_assoc. reflexivity.
    + constructor; assumption.
Qed.

(** ** The sample grid *)

Lemma reshape_length r c xs : length (np.reshape r c xs) = r.
Proof.
  revert xs. induction r as [| r IH]; intros xs; simpl; [reflexivity |].
  rewrite IH. reflexivity.
Qed.

Lemma reshape_concat r c xs :
  concat (np.reshape r c xs) = take (r * c)%nat xs.
Proof.
  revert xs. induction r as [| r IH]; intros xs; simpl; [reflexivity |].
  rewrite IH. apply take_take_drop.
Qed.

Lemma reshape_row_length r c xs :
  length xs = (r * c)%nat ->
  Forall (fun row => length row = c) (np.reshape r c xs).
Proof.
  revert xs. induction r as [| r IH]; intros xs Hlen; simpl.
  - constructor.
  - constructor.
    + apply length_take_le. simpl in Hlen. lia.
    + apply IH. rewrite length_drop, Hlen. simpl. lia.
Qed.

Lemma byte_val_range b : 0 <= np.byte_val b < 256.
Proof.
  unfold np.byte_val. pose proof (Byte.to_N_bounded b). lia.
Qed.

Lemma word16_range o b0 b1 : 0 <= np.word16 o b0 b1 < 65536.
Proof.
  pose proof (byte_val_range b0). pose proof (byte_val_range b1).
  destruct o; simpl; lia.
Qed.

Lemma words16_spec o (n : nat) : forall buffer,
  length buffer = (2 * n)%nat ->
  length (np.words16 o buffer) = n /\
  Forall (fun s => 0 <= s < 65536) (np.words16 o buffer).
Proof.
  induction n as [| n IH]; intros buffer Hlen.
  - destruct buffer; [| discriminate]. split; [reflexivity | constructor].
  - destruct buffer as [| b0 [| b1 rest]]; simpl in Hlen; try lia.
    destruct (IH rest ltac:(lia)) as [L F].
    cbn [np.words16 length]. split; [congruence |].
    constructor; [apply word16_range | exact F].
Qed.

Lemma samples_range o d buffer n :
  length buffer = (Z.to_nat (np.itemsize d) * n)%nat ->
  Forall (fun s => 0 <= s < 2 ^ np.bits d) (np.samples o d buffer).
Proof.
  destruct d; intros Hlen; cbn [np.samples].
  - change (2 ^ np.bits np.uint8) with 256.
    apply Forall_forall. intros s Hs. apply list_elem_of_In in Hs.
    apply in_map_iff in Hs. destruct Hs as (b & <- & _). apply byte_val_range.
  - change (2 ^ np.bits np.uint16) with 65536.
    apply (words16_spec o n). exact Hlen.
Qed.

Lemma samples_length o d buffer n :
  length buffer = (Z.to_nat (np.itemsize d) * n)%nat ->
  length (np.samples o d buffer) = n.
Proof.
  destruct d; intros Hlen; cbn [np.samples].
  - rewrite length_map. simpl in Hlen. lia.
  - apply (words16_spec o n). exact Hlen.
Qed.

(** ** Claims about one conversion *)

(** C1, for frames of at least one row and one column and a redaction
    request that names no attribute of the dataset object: a file whose
    record has Rows = R >= 1, Columns = C >= 1, BitsStored = 8 or 16 and a
    PixelData buffer of exactly R*C*(BitsStored/8)
    bytes is converted with an image: the call returns normally and appends
    an item whose image is the sibling .png path, that path holds the PNG of
    the extracted array, and the array is the buffer read as R rows of C
    unsigned samples of BitsStored bits in row-major order (R*C samples,
    each in [0, 2^BitsStored - 1]). *)
Theorem valid_frame_extracted f req acc w ds R C B buf :
  fs w !! str f = Some (DicomFile ds) ->
  no_attribute_named req ->
  get ds "Rows" = VInt R -> get ds "Columns" = VInt C ->
  get ds "BitsStored" = VInt B -> get ds "PixelData" = VBytes buf ->
  1 <= R -> 1 <= C -> B = 8 \/ B = 16 ->
  Z.of_nat (length buf) = R * C * (B / 8) ->
  convert_dicom_to_data f req acc w
  = (inl (acc ++ [mkConverted (Some (image_path f)) (name f) (dataset_path f)])%list,
     written (image_path f) (PngFile (frame_image R C B buf))
       (after_metadata f req ds w)) /\
  fs (written (image_path f) (PngFile (frame_image R C B buf))
        (after_metadata f req ds w)) !! image_path f
  = Some (PngFile (frame_image R C B buf)) /\
  np.bits (np.array_dtype (frame_image R C B buf)) = B /\
  length (np.array_rows (frame_image R C B buf)) = Z.to_nat R /\
  Forall (fun row => length row = Z.to_nat C)
    (np.array_rows (frame_image R C B buf)) /\
  concat (np.array_rows (frame_image R C B buf))
  = np.samples byteorder (np.array_dtype (frame_image R C B buf)) buf /\
  length (concat (np.array_rows (frame_image R C B buf))) = Z.to_nat (R * C) /\
  Forall (fun s => 0 <= s < 2 ^ B)
    (concat (np.array_rows (frame_image R C B buf))).
Proof.
  intros Hfs Hreq HR HC HB HP HR1 HC1 HB' Hlen.
  assert (Hbits : np.bits (dtype_of B) = B)
    by (destruct HB' as [-> | ->]; reflexivity).
  assert (Hn : length buf
               = (Z.to_nat (np.itemsize (dtype_of B)) * Z.to_nat (R * C))%nat).
  { assert (np.itemsize (dtype_of B) = B / 8)
      by (destruct HB' as [-> | ->]; reflexivity).
    assert (0 <= B / 8) by (destruct HB' as [-> | ->]; discriminate).
    rewrite <- Z2Nat.inj_mul by lia. lia. }
  pose proof (samples_length byteorder (dtype_of B) buf _ Hn) as Hsl.
  pose proof (samples_range byteorder (dtype_of B) buf _ Hn) as Hsr.
  rewrite Hbits in Hsr.
  assert (Hcat : concat (np.array_rows (frame_image R C B buf))
                 = np.samples byteorder (dtype_of B) buf).
  { unfold frame_image. cbn [np.array_rows]. rewrite reshape_concat.
    apply take_ge. rewrite Hsl. rewrite <- Z2Nat.inj_mul by lia. lia. }
  split; [apply (convert_valid f req acc w ds R C B buf); try assumption;
          apply remove_requested_run; exact Hreq |].
  split; [unfold written; cbn [fs]; apply lookup_insert_eq |].
  split; [exact Hbits |].
  split; [apply reshape_length |].
  split.
  { unfold frame_image. cbn [np.array_rows]. apply reshape_row_length.
    rewrite Hsl. apply Z2Nat.inj_mul; lia. }
  split; [exact Hcat |].
  rewrite Hcat. split; assumption.
Qed.


Lemma append_cancel (p a b : string) : p ++ a = p ++ b -> a = b.
Proof.
  induction p as [| c p IH]; simpl; intros E; [exact E |].
  inversion E. auto.
Qed.

Lemma dataset_path_not_image_path f : dataset_path f <> image_path f.
Proof.
  unfold dataset_path, image_path, str, sibling. cbn [parent name].
  intros E. do 3 apply append_cancel in E. discriminate.
Qed.

Lemma fs_after_metadata f req ds w :
  fs (after_metadata f req ds w) !! dataset_path f = Some (metadata_file req ds).
Proof. unfold after_metadata. cbn [fs]. apply lookup_insert_eq. Qed.

Lemma image_untouched_by_metadata f req ds w :
  fs (after_metadata f req ds w) !! image_path f = fs w !! image_path f.
Proof.
  unfold after_metadata. cbn [fs]. apply lookup_insert_ne.
  apply dataset_path_not_image_path.
Qed.

Lemma redaction_warnings_are_warnings names ds :
  Forall (fun e => logs_error e = false /\ writes_image e = false)
    (redaction_warnings names ds).
Proof.
  revert ds. induction names as [| n rest IH]; intros ds; simpl.
  - constructor.
  - destruct (truthy (get ds n)); [apply IH |].
    constructor; [split; reflexivity | apply IH].
Qed.

Lemma metadata_events_harmless f req ds :
  Forall (fun e => logs_error e = false /\ writes_image e = false)
    (metadata_events f req ds).
Proof.
  unfold metadata_events. apply Forall_app. split.
  - apply redaction_warnings_are_warnings.
  - constructor; [split; reflexivity | constructor].
Qed.




(** C2, for a supported bit depth and a redaction request that names no
    attribute of the dataset object: when the four pixel attributes are
    filled (Rows and Columns non-zero, PixelData non-empty), BitsStored is
    8 or 16 and
    len(PixelData) differs from Rows*Columns*(BitsStored/8), the converter
    logs an error, the metadata JSON is written, no image is written, the
    item appended for the file has image = None, and the batch goes on with
    the next file. *)
Theorem size_mismatch_is_recoverable f req acc w ds R C B buf :
  fs w !! str f = Some (DicomFile ds) ->
  no_attribute_named req ->
  get ds "Rows" = VInt R -> get ds "Columns" = VInt C ->
  get ds "BitsStored" = VInt B -> get ds "PixelData" = VBytes buf ->
  R <> 0 -> C <> 0 -> buf <> [] -> B = 8 \/ B = 16 ->
  Z.of_nat (length buf) <> R * C * (B / 8) ->
  convert_dicom_to_data f req acc w
  = (inl (acc ++ [mkConverted None (name f) (dataset_path f)])%list,
     add_event (size_error f) (after_metadata f req ds w)) /\
  logs_error (size_error f) = true /\
  fs (add_event (size_error f) (after_metadata f req ds w)) !! dataset_path f
  = Some (metadata_file req ds) /\
  fs (add_event (size_error f) (after_metadata f req ds w)) !! image_path f
  = fs w !! image_path f /\
  Forall (fun e => writes_image e = false)
    (metadata_events f req ds ++ [size_error f])%list /\
  forall rest, convert_all (f :: rest) req acc w
    = convert_all rest req (acc ++ [mkConverted None (name f) (dataset_path f)])%list
        (add_event (size_error f) (after_metadata f req ds (announced f w))).
Proof.
  intros Hfs Hreq HR HC HB HP HR0 HC0 Hbuf HB' Hlen.
  assert (Hfill : filled (VInt R) (VInt C) (VBytes buf) (VInt B) = true).
  { apply filled_typed; try assumption. destruct HB' as [-> | ->]; discriminate. }
  split; [apply (convert_mismatch f req acc w ds R C B buf); try assumption;
          apply remove_requested_run; exact Hreq |].
  split; [reflexivity |].
  split; [apply fs_after_metadata |].
  split; [apply image_untouched_by_metadata |].
  split.
  { apply Forall_app. split.
    - eapply Forall_impl; [apply metadata_events_harmless |]. intros e [_ He]. exact He.
    - constructor; [reflexivity | constructor]. }
  intros rest. cbn [convert_all]. unfold bind, logger.
  change {| fs := fs w; trace := (trace w ++ [Logged DEBUG ("Convert " ++ str (resolve f))])%list |}
    with (announced f w).
  rewrite (convert_mismatch f req acc (announced f w) ds R C B buf)
    by (try assumption; apply remove_requested_run; exact Hreq).
  reflexivity.
Qed.

(** A run that reaches a file with filled pixel attributes and an
    unsupported bit depth stops there. *)
Lemma batch_stops_at_bad_bits pre f post req w acc w1 ds R C B buf :
  convert_all pre req [] w = (inl acc, w1) ->
  fs w1 !! str f = Some (DicomFile ds) ->
  no_attribute_named req ->
  get ds "Rows" = VInt R -> get ds "Columns" = VInt C ->
  get ds "BitsStored" = VInt B -> get ds "PixelData" = VBytes buf ->
  R <> 0 -> C <> 0 -> buf <> [] -> B <> 0 -> B <> 8 -> B <> 16 ->
  dicom2json (pre ++ f :: post)%list req w
  = (inr (unsupported_bits B), after_metadata f req ds (announced f w1)) /\
  no_template_written w (after_metadata f req ds (announced f w1)).
Proof.
  intros Hpre Hfs Hreq HR HC HB HP HR0 HC0 Hbuf HB0 H8 H16.
  assert (Hfill : filled (VInt R) (VInt C) (VBytes buf) (VInt B) = true)
    by (apply filled_typed; assumption).
  assert (Hrun : convert_all (pre ++ f :: post)%list req [] w
                 = (inr (unsupported_bits B), after_metadata f req ds (announced f w1))).
  { rewrite convert_all_app, Hpre. cbn [convert_all]. unfold bind, logger.
    change {| fs := fs w1; trace := (trace w1 ++ [Logged DEBUG ("Convert " ++ str (resolve f))])%list |}
      with (announced f w1).
    rewrite (convert_bad_bits f req acc (announced f w1) ds R C B buf)
      by (try assumption; apply remove_requested_run; exact Hreq).
    reflexivity. }
  split.
  - unfold dicom2json. rewrite try_except_raise_run. unfold bind at 1.
    rewrite Hrun. reflexivity.
  - pose proof (convert_all_quiet (pre ++ f :: post)%list req [] w) as Hq.
    rewrite Hrun in Hq. exact Hq.
Qed.

(** C3, for filled attributes and a redaction request that names no
    attribute of the dataset object: when the run reaches a file whose four
    pixel attributes are filled (truthy) and whose BitsStored is neither 8
    nor 16, the
    converter raises the unsupported-bit-depth ValueError, the error leaves
    dicom2json (the batch is aborted, later files are not converted), and
    the run writes no manifest. *)
Theorem unsupported_bits_aborts_run pre f post req w acc w1 ds R C B buf :
  convert_all pre req [] w = (inl acc, w1) ->
  fs w1 !! str f = Some (DicomFile ds) ->
  no_attribute_named req ->
  get ds "Rows" = VInt R -> get ds "Columns" = VInt C ->
  get ds "BitsStored" = VInt B -> get ds "PixelData" = VBytes buf ->
  R <> 0 -> C <> 0 -> buf <> [] -> B <> 0 -> B <> 8 -> B <> 16 ->
  fst (convert_dicom_to_data f req acc (announced f w1))
  = inr (ValueError ("Unrecognized DICOM BitsStored value '" ++ str_of_int B ++ "'")) /\
  fst (dicom2json (pre ++ f :: post)%list req w)
  = inr (ValueError ("Unrecognized DICOM BitsStored value '" ++ str_of_int B ++ "'")) /\
  snd (dicom2json (pre ++ f :: post)%list req w)
  = snd (convert_dicom_to_data f req acc (announced f w1)) /\
  exists evs : list event,
    trace (snd (dicom2json (pre ++ f :: post)%list req w)) = (trace w ++ evs)%list /\
    Forall (fun e => writes_template e = false) evs.
Proof.
  intros Hpre Hfs Hreq HR HC HB HP HR0 HC0 Hbuf HB0 H8 H16.
  destruct (batch_stops_at_bad_bits pre f post req w acc w1 ds R C B buf)
    as [Hrun Hq]; try assumption.
  assert (Hfill : filled (VInt R) (VInt C) (VBytes buf) (VInt B) = true)
    by (apply filled_typed; assumption).
  rewrite Hrun, (convert_bad_bits f req acc (announced f w1) ds R C B buf)
    by (try assumption; apply remove_requested_run; exact Hreq).
  repeat split; try reflexivity. exact Hq.
Qed.

(** A conversion that raises a ValueError has written its metadata. *)
Lemma value_error_after_metadata f req acc w msg w2 :
  convert_dicom_to_data f req acc w = (inr (ValueError msg), w2) ->
  exists ds, fs w !! str f = Some (DicomFile ds) /\ loop_done req ds w /\
             w2 = after_metadata f req ds w.
Proof.
  intros Hrun.
  destruct (convert_cases f req acc w)
    as [(e & Hne & E)
       | (ds & Hfs & [(k & evs & _ & _ & _ & E)
                     | (Hloop & [(e & E) | [E | [E | (img & E)]]])])];
    rewrite E in Hrun; inversion Hrun; subst.
  - exfalso. apply (Hne msg). reflexivity.
  - exists ds. auto.
Qed.

(** C10: the per-file step is not atomic.  When the run aborts on the
    unsupported BitsStored of file f (the conversion of f raises that
    error), the metadata JSON of f is already on disk (it is the last thing
    the run wrote), while the run writes no manifest and returns no item for
    f. *)
Theorem aborting_file_leaves_metadata pre f post req w acc w1 B w2 :
  convert_all pre req [] w = (inl acc, w1) ->
  convert_dicom_to_data f req acc (announced f w1) = (inr (unsupported_bits B), w2) ->
  exists ds : Dataset,
    fs w1 !! str f = Some (DicomFile ds) /\
    dicom2json (pre ++ f :: post)%list req w = (inr (unsupported_bits B), w2) /\
    fs w2 !! dataset_path f = Some (metadata_file req ds) /\
    last (trace w2) = Some (Written (dataset_path f) (metadata_file req ds)) /\
    exists evs : list event,
      trace w2 = (trace w ++ evs)%list /\
      Forall (fun e => writes_template e = false) evs.
Proof.
  intros Hpre Hconv.
  destruct (value_error_after_metadata _ _ _ _ _ _ Hconv) as (ds & Hfs & _ & Hw2).
  assert (Hrun : convert_all (pre ++ f :: post)%list req [] w
                 = (inr (unsupported_bits B), w2)).
  { rewrite convert_all_app, Hpre. cbn [convert_all]. unfold bind, logger.
    change {| fs := fs w1; trace := (trace w1 ++ [Logged DEBUG ("Convert " ++ str (resolve f))])%list |}
      with (announced f w1).
    rewrite Hconv. reflexivity. }
  exists ds. split; [exact Hfs |].
  split.
  { unfold dicom2json. rewrite try_except_raise_run. unfold bind at 1.
    rewrite Hrun. reflexivity. }
  split; [rewrite Hw2; apply fs_after_metadata |].
  split.
  { rewrite Hw2. unfold after_metadata, metadata_events. cbn [trace].
    rewrite !app_assoc. apply last_snoc. }
  pose proof (convert_all_quiet (pre ++ f :: post)%list req [] w) as Hq.
  rewrite Hrun in Hq. exact Hq.
Qed.

Lemma sorted_template_entry data :
  json.sorted (template_entry data) = manifest_entry data.
Proof.
  destruct data as [[img |] out tpl]; reflexivity.
Qed.

Lemma sorted_template_entries entries :
  json.sorted (json.JArr (List.map template_entry entries))
  = json.JArr (List.map manifest_entry entries).
Proof.
  cbn [json.sorted]. f_equal. rewrite List.map_map.
  apply List.map_ext. intros data. apply sorted_template_entry.
Qed.

(** C5: after a batch run that completes, the manifest is a JSON array with
    exactly one entry per input file, in input order; entry i is
    {image, output, template} with output the name of file i, template the
    metadata path of file i and image either null or the image path of
    file i. *)
Theorem manifest_lists_every_input files req w w' :
  dicom2json files req w = (inl tt, w') ->
  exists entries : list DicomConvertedData,
    Forall2 (fun f data =>
               output data = name f /\ template data = dataset_path f /\
               (image data = None \/ image data = Some (image_path f)))
      files entries /\
    length entries = length files /\
    fs w' !! template_path
    = Some (JsonFile (json.Rendered 2
        (json.JArr (List.map (fun data =>
           json.JObj [("image", json_of_option (image data));
                      ("output", json.JStr (output data));
                      ("template", json.JStr (template data))]) entries)))).
Proof.
  intros Hrun. unfold dicom2json in Hrun. rewrite try_except_raise_run in Hrun.
  unfold bind at 1 in Hrun.
  destruct (convert_all files req [] w) as [[acc | e] w1] eqn:Hall; [| discriminate].
  destruct (convert_all_returns _ _ _ _ _ _ Hall) as (entries & -> & Hent).
  rewrite with_suffix_template in Hrun.
  unfold bind, lift, write_file, logger in Hrun. cbn [fs trace] in Hrun.
  inversion Hrun; subst; clear Hrun.
  exists entries. split; [| split].
  - eapply Forall2_impl; [exact Hent |].
    intros f data [-> | ->]; cbn [entry output template image]; auto.
  - symmetry. eapply Forall2_length. exact Hent.
  - cbn [fs app]. unfold template_path. rewrite lookup_insert_eq.
    unfold my_json_dumps, json.dumps. rewrite sorted_template_entries.
    reflexivity.
Qed.

(** ** Redaction *)

Lemma redacted_app l1 l2 ds :
  redacted (l1 ++ l2)%list ds = redacted l2 (redacted l1 ds).
Proof.
  revert ds. induction l1 as [| n l1 IH]; intros ds; simpl; [reflexivity |].
  destruct (truthy (get ds n)); apply IH.
Qed.

Lemma redaction_warnings_app l1 l2 ds :
  redaction_warnings (l1 ++ l2)%list ds
  = (redaction_warnings l1 ds ++ redaction_warnings l2 (redacted l1 ds))%list.
Proof.
  revert ds. induction l1 as [| n l1 IH]; intros ds; simpl; [reflexivity |].
  destruct (truthy (get ds n)); [apply IH |].
  rewrite IH. reflexivity.
Qed.

Lemma redacted_keeps_absent names ds F :
  elements ds !! F = None -> elements (redacted names ds) !! F = None.
Proof.
  revert ds. induction names as [| n rest IH]; intros ds Habs; simpl; [exact Habs |].
  destruct (truthy (get ds n)); apply IH; [| exact Habs].
  cbn [elements]. destruct (decide (n = F)) as [-> | Hne].
  - apply lookup_delete_eq.
  - rewrite lookup_delete_ne by exact Hne. exact Habs.
Qed.

Lemma get_after_delete ds n F :
  n <> F ->
  get {| file_meta := file_meta ds; elements := delete n (elements ds) |} F
  = get ds F.
Proof.
  intros Hne. unfold get, attribute. cbn [file_meta elements].
  rewrite lookup_delete_ne by exact Hne. reflexivity.
Qed.

Lemma redacted_skips_absent l1 l2 ds F :
  is_attribute F = false ->
  elements ds !! F = None ->
  redacted (l1 ++ F :: l2)%list ds = redacted (l1 ++ l2)%list ds /\
  redaction_warnings (l1 ++ F :: l2)%list ds
  = (redaction_warnings l1 ds ++
     unrecognized F :: redaction_warnings l2 (redacted l1 ds))%list /\
  redaction_warnings (l1 ++ l2)%list ds
  = (redaction_warnings l1 ds ++ redaction_warnings l2 (redacted l1 ds))%list.
Proof.
  intros Hattr Habs.
  assert (Hf : truthy (get (redacted l1 ds) F) = false).
  { rewrite (get_absent _ F Hattr (redacted_keeps_absent l1 ds F Habs)).
    reflexivity. }
  rewrite !redacted_app, !redaction_warnings_app. cbn [redacted redaction_warnings].
  rewrite Hf. auto.
Qed.







(** ** What the removal loop does to the record *)

Lemma falsy_field_is_kept ds F v :
  is_attribute F = false ->
  elements ds !! F = Some v -> truthy v = false ->
  redacted [F] ds = ds /\ redaction_warnings [F] ds = [unrecognized F].
Proof.
  intros Hattr Hv Hf. cbn [redacted redaction_warnings].
  rewrite (get_element ds F Hattr), Hv. cbn [default from_option id].
  rewrite Hf. auto.
Qed.

Lemma other_fields_unchanged names ds k :
  ~ In k names -> elements (redacted names ds) !! k = elements ds !! k.
Proof.
  revert ds. induction names as [| n rest IH]; intros ds Hk; simpl; [reflexivity |].
  assert (n <> k) by (intros ->; apply Hk; left; reflexivity).
  assert (~ In k rest) by (intros Hin; apply Hk; right; exact Hin).
  destruct (truthy (get ds n)); rewrite IH by assumption; [| reflexivity].
  cbn [elements]. apply lookup_delete_ne. assumption.
Qed.

Lemma truthy_field_is_removed names ds F :
  In F names -> truthy (get ds F) = true ->
  elements (redacted names ds) !! F = None.
Proof.
  revert ds. induction names as [| n rest IH]; intros ds Hin Ht; [destruct Hin |].
  cbn [redacted]. destruct (String.eqb_spec n F) as [-> | Hne].
  - rewrite Ht. apply redacted_keeps_absent. cbn [elements]. apply lookup_delete_eq.
  - destruct Hin as [E | Hin]; [congruence |].
    destruct (truthy (get ds n)); apply IH; try assumption.
    rewrite get_after_delete by assumption. exact Ht.
Qed.

End Observations.

(** ** Concrete runs *)

(** C4: the removal loop tests the truth value of the field, so a field
    that is present with a falsy value is not removed.  Asked to remove
    PixelRepresentation from a record where it is 0, the converter reports
    the name as unrecognized and the metadata JSON still carries the
    member of that field. *)
Theorem zero_valued_field_survives_redaction :
  elements Demo.unsigned_frame !! "PixelRepresentation" = Some (VInt 0) /\
  match document_at
          (snd (convert_dicom_to_data Demo.scan (Some ["PixelRepresentation"]) []
                  (Demo.world_of Demo.unsigned_frame)))
          (dataset_path Demo.scan) with
  | Some doc =>
      json.lookup_path ["data"; json_key "PixelRepresentation"] doc
      = Some (json.JObj [("Value", json.JArr [json.JInt 0])])
  | None => False
  end /\
  In (Logged WARNING "Unrecognized DICOM field named 'PixelRepresentation'")
    (trace (snd (convert_dicom_to_data Demo.scan (Some ["PixelRepresentation"]) []
                   (Demo.world_of Demo.unsigned_frame)))).
Proof.
  split; [vm_compute; reflexivity |].
  split; [vm_compute; reflexivity |].
  vm_compute. left. reflexivity.
Qed.

(** Rows = 0 with a buffer of exactly 0*5*(8/8) bytes: the item has no
    image and no PNG is written. *)
Lemma empty_frame_yields_no_image :
  fs (Demo.world_of Demo.empty_frame) !! str Demo.scan
  = Some (DicomFile Demo.empty_frame) /\
  get Demo.empty_frame "Rows" = VInt 0 /\
  get Demo.empty_frame "Columns" = VInt 5 /\
  get Demo.empty_frame "BitsStored" = VInt 8 /\
  get Demo.empty_frame "PixelData" = VBytes [] /\
  Z.of_nat (length (@nil byte)) = 0 * 5 * (8 / 8) /\
  fst (convert_dicom_to_data Demo.scan None [] (Demo.world_of Demo.empty_frame))
  = inl [mkConverted None "scan.dcm" "/opt/dicomjson/output/scan.json"] /\
  fs (snd (convert_dicom_to_data Demo.scan None [] (Demo.world_of Demo.empty_frame)))
    !! image_path Demo.scan = None.
Proof. repeat split; vm_compute; reflexivity. Qed.

(** All four attributes present, three bytes where 2*2*(12/8) are
    expected: the mismatch is not logged, the ValueError of the bit depth
    aborts the run and no manifest is written. *)
Lemma odd_depth_mismatch_aborts :
  fs (Demo.world_of Demo.odd_depth_frame) !! str Demo.scan
  = Some (DicomFile Demo.odd_depth_frame) /\
  get Demo.odd_depth_frame "Rows" = VInt 2 /\
  get Demo.odd_depth_frame "Columns" = VInt 2 /\
  get Demo.odd_depth_frame "BitsStored" = VInt 12 /\
  get Demo.odd_depth_frame "PixelData" = VBytes (Demo.bytes_of [10; 20; 30]) /\
  8 * Z.of_nat (length (Demo.bytes_of [10; 20; 30])) <> 2 * 2 * 12 /\
  fst (convert_dicom_to_data Demo.scan None [] (Demo.world_of Demo.odd_depth_frame))
  = inr (ValueError "Unrecognized DICOM BitsStored value '12'") /\
  fst (dicom2json [Demo.scan] None (Demo.world_of Demo.odd_depth_frame))
  = inr (ValueError "Unrecognized DICOM BitsStored value '12'") /\
  existsb logs_error
    (trace (snd (dicom2json [Demo.scan] None (Demo.world_of Demo.odd_depth_frame))))
  = false /\
  fs (snd (dicom2json [Demo.scan] None (Demo.world_of Demo.odd_depth_frame)))
    !! template_path = None.
Proof. repeat split; try (vm_compute; reflexivity). vm_compute. discriminate. Qed.

(** All four attributes present, BitsStored = 12, PixelData of length
    zero: no error is raised, the run completes and writes the manifest. *)
Lemma odd_depth_without_pixels_completes :
  fs (Demo.world_of Demo.odd_depth_no_pixels) !! str Demo.scan
  = Some (DicomFile Demo.odd_depth_no_pixels) /\
  elements Demo.odd_depth_no_pixels !! "Rows" = Some (VInt 2) /\
  elements Demo.odd_depth_no_pixels !! "Columns" = Some (VInt 2) /\
  elements Demo.odd_depth_no_pixels !! "BitsStored" = Some (VInt 12) /\
  elements Demo.odd_depth_no_pixels !! "PixelData" = Some (VBytes []) /\
  fst (dicom2json [Demo.scan] None (Demo.world_of Demo.odd_depth_no_pixels))
  = inl tt /\
  existsb writes_template
    (trace (snd (dicom2json [Demo.scan] None (Demo.world_of Demo.odd_depth_no_pixels))))
  = true /\
  document_at (snd (dicom2json [Demo.scan] None (Demo.world_of Demo.odd_depth_no_pixels)))
    template_path
  = Some (json.JArr [json.JObj [("image", json.JNull);
                                ("output", json.JStr "scan.dcm");
                                ("template", json.JStr "/opt/dicomjson/output/scan.json")]]).
Proof. repeat split; vm_compute; reflexivity. Qed.




(** ** Instances of the theorems on the sample files *)

Ltac names_elements :=
  let n := fresh "n" in
  let Hn := fresh "Hn" in
  intros n Hn; cbn in Hn;
  repeat (destruct Hn as [<- | Hn]; [reflexivity |]); destruct Hn.

Lemma valid_frame_extracted_witness :
  fs (Demo.world_of Demo.valid_frame) !! str Demo.scan
  = Some (DicomFile Demo.valid_frame) /\
  no_attribute_named (Some ["PatientName"]) /\
  get Demo.valid_frame "Rows" = VInt 2 /\
  get Demo.valid_frame "Columns" = VInt 2 /\
  get Demo.valid_frame "BitsStored" = VInt 8 /\
  get Demo.valid_frame "PixelData" = VBytes (Demo.bytes_of [10; 20; 30; 40]) /\
  concat (np.array_rows (frame_image 2 2 8 (Demo.bytes_of [10; 20; 30; 40])))
  = np.samples byteorder
      (np.array_dtype (frame_image 2 2 8 (Demo.bytes_of [10; 20; 30; 40])))
      (Demo.bytes_of [10; 20; 30; 40]).
Proof.
  split; [reflexivity |]. split; [names_elements |].
  do 4 (split; [reflexivity |]).
  destruct (valid_frame_extracted Demo.scan (Some ["PatientName"]) []
              (Demo.world_of Demo.valid_frame)
              Demo.valid_frame 2 2 8 (Demo.bytes_of [10; 20; 30; 40]))
    as (_ & _ & _ & _ & _ & Hcat & _);
    [reflexivity | names_elements | reflexivity | reflexivity | reflexivity
    | reflexivity | lia | lia | left; reflexivity | reflexivity | exact Hcat].
Defined.

Lemma size_mismatch_is_recoverable_witness :
  fs (Demo.world_of Demo.truncated_frame) !! str Demo.scan
  = Some (DicomFile Demo.truncated_frame) /\
  no_attribute_named (Some ["PatientName"]) /\
  Z.of_nat (length (Demo.bytes_of [10; 20; 30])) <> 2 * 2 * (8 / 8) /\
  convert_dicom_to_data Demo.scan (Some ["PatientName"]) []
    (Demo.world_of Demo.truncated_frame)
  = (inl ([] ++ [mkConverted None (name Demo.scan) (dataset_path Demo.scan)])%list,
     add_event (size_error Demo.scan)
       (after_metadata Demo.scan (Some ["PatientName"]) Demo.truncated_frame
          (Demo.world_of Demo.truncated_frame))).
Proof.
  split; [reflexivity |]. split; [names_elements |].
  split; [vm_compute; discriminate |].
  apply (size_mismatch_is_recoverable Demo.scan (Some ["PatientName"]) []
           (Demo.world_of Demo.truncated_frame)
           Demo.truncated_frame 2 2 8 (Demo.bytes_of [10; 20; 30]));
    [reflexivity | names_elements | reflexivity | reflexivity | reflexivity
    | reflexivity | discriminate | discriminate | discriminate
    | left; reflexivity | discriminate].
Defined.

Lemma unsupported_bits_aborts_run_witness :
  fs (Demo.world_of Demo.odd_depth_frame) !! str Demo.scan
  = Some (DicomFile Demo.odd_depth_frame) /\
  no_attribute_named (Some ["PatientName"]) /\
  fst (dicom2json ([] ++ Demo.scan :: [Demo.second])%list (Some ["PatientName"])
         (Demo.world_of Demo.odd_depth_frame))
  = inr (ValueError ("Unrecognized DICOM BitsStored value '" ++ str_of_int 12 ++ "'")).
Proof.
  split; [reflexivity |]. split; [names_elements |].
  apply (unsupported_bits_aborts_run [] Demo.scan [Demo.second] (Some ["PatientName"])
           (Demo.world_of Demo.odd_depth_frame) [] (Demo.world_of Demo.odd_depth_frame)
           Demo.odd_depth_frame 2 2 12 (Demo.bytes_of [10; 20; 30]));
    [reflexivity | reflexivity | names_elements | reflexivity | reflexivity
    | reflexivity | reflexivity | discriminate | discriminate | discriminate
    | discriminate | discriminate | discriminate].
Defined.

Lemma aborting_file_leaves_metadata_witness :
  convert_dicom_to_data Demo.scan None []
    (announced Demo.scan (Demo.world_of Demo.odd_depth_frame))
  = (inr (unsupported_bits 12),
     after_metadata Demo.scan None Demo.odd_depth_frame
       (announced Demo.scan (Demo.world_of Demo.odd_depth_frame))) /\
  exists ds : Dataset,
    fs (Demo.world_of Demo.odd_depth_frame) !! str Demo.scan = Some (DicomFile ds) /\
    fst (dicom2json ([] ++ Demo.scan :: [Demo.second])%list None
           (Demo.world_of Demo.odd_depth_frame))
    = inr (unsupported_bits 12) /\
    fs (snd (dicom2json ([] ++ Demo.scan :: [Demo.second])%list None
               (Demo.world_of Demo.odd_depth_frame))) !! dataset_path Demo.scan
    = Some (metadata_file None ds).
Proof.
  assert (Hconv :
    convert_dicom_to_data Demo.scan None []
      (announced Demo.scan (Demo.world_of Demo.odd_depth_frame))
    = (inr (unsupported_bits 12),
       after_metadata Demo.scan None Demo.odd_depth_frame
         (announced Demo.scan (Demo.world_of Demo.odd_depth_frame))))
    by (vm_compute; reflexivity).
  split; [exact Hconv |].
  destruct (aborting_file_leaves_metadata [] Demo.scan [Demo.second] None
              (Demo.world_of Demo.odd_depth_frame) [] (Demo.world_of Demo.odd_depth_frame)
              12 _ eq_refl Hconv)
    as (ds & Hfs & Hrun & Hfile & _).
  exists ds. rewrite Hrun. cbn [fst snd]. auto.
Defined.

Lemma manifest_lists_every_input_witness :
  dicom2json [Demo.scan; Demo.second] None Demo.two_files
  = (inl tt, snd (dicom2json [Demo.scan; Demo.second] None Demo.two_files)) /\
  exists entries : list DicomConvertedData,
    length entries = length [Demo.scan; Demo.second] /\
    document_at (snd (dicom2json [Demo.scan; Demo.second] None Demo.two_files))
      template_path
    = Some (json.JArr (List.map manifest_entry entries)).
Proof.
  assert (Hrun : dicom2json [Demo.scan; Demo.second] None Demo.two_files
                 = (inl tt, snd (dicom2json [Demo.scan; Demo.second] None Demo.two_files)))
    by (vm_compute; reflexivity).
  split; [exact Hrun |].
  destruct (manifest_lists_every_input _ _ _ _ Hrun) as (entries & _ & Hlen & Hdoc).
  exists entries. split; [exact Hlen |].
  unfold document_at. rewrite Hdoc. reflexivity.
Defined.




(** ** Further properties of the converter *)

Section Further.

Context `{Env}.

Lemma unparsed_outcome f req acc w :
  match fs w !! str f with
  | None => convert_dicom_to_data f req acc w = (inr FileNotFoundError, w)
  | Some Unreadable => convert_dicom_to_data f req acc w = (inr PermissionError, w)
  | Some (DicomFile _) => True
  | Some _ => convert_dicom_to_data f req acc w = (inr InvalidDicomError, w)
  end.
Proof.
  destruct (fs w !! str f) as [[ds | | | |] |] eqn:E; try exact I;
    unfold convert_dicom_to_data; rewrite try_except_raise_run;
    unfold bind at 1; unfold dcmread; rewrite E; reflexivity.
Qed.

(** X1: A file [dcmread] cannot parse is not converted: the call raises the
    error of the read (FileNotFoundError for a missing file, PermissionError
    for an unreadable one, InvalidDicomError for a file that is not DICOM)
    and leaves the file system and the log as they were. *)
Theorem unparsed_input_raises_untouched f req acc w :
  match fs w !! str f with
  | None => convert_dicom_to_data f req acc w = (inr FileNotFoundError, w)
  | Some Unreadable => convert_dicom_to_data f req acc w = (inr PermissionError, w)
  | Some (DicomFile _) => True
  | Some _ => convert_dicom_to_data f req acc w = (inr InvalidDicomError, w)
  end.
Proof. apply unparsed_outcome. Qed.

Lemma convert_all_step f rest req acc w :
  convert_all (f :: rest) req acc w
  = match convert_dicom_to_data f req acc (announced f w) with
    | (inl acc', w') => convert_all rest req acc' w'
    | (inr e, w') => (inr e, w')
    end.
Proof. reflexivity. Qed.

Lemma dicom2json_raises files req w e w' :
  convert_all files req [] w = (inr e, w') ->
  dicom2json files req w = (inr e, w').
Proof.
  intros Hrun. unfold dicom2json. rewrite try_except_raise_run.
  unfold bind at 1. rewrite Hrun. reflexivity.
Qed.

(** X2: The first conversion that raises ends the batch: the error leaves
    [dicom2json] as it is, the world is the one that conversion left (what
    earlier files wrote stays), later files are not looked at and no
    manifest is written. *)
Theorem first_failure_aborts_batch pre f post req w acc w1 e w2 :
  convert_all pre req [] w = (inl acc, w1) ->
  convert_dicom_to_data f req acc (announced f w1) = (inr e, w2) ->
  dicom2json (pre ++ f :: post)%list req w = (inr e, w2) /\
  exists evs : list event,
    trace w2 = (trace w ++ evs)%list /\
    Forall (fun ev => writes_template ev = false) evs.
Proof.
  intros Hpre Hf.
  assert (Hrun : convert_all (pre ++ f :: post)%list req [] w = (inr e, w2)).
  { rewrite convert_all_app, Hpre, convert_all_step, Hf. reflexivity. }
  split; [apply dicom2json_raises; exact Hrun |].
  pose proof (convert_all_quiet (pre ++ f :: post)%list req [] w) as Hq.
  rewrite Hrun in Hq. exact Hq.
Qed.

Lemma empty_batch req w :
  dicom2json [] req w
  = (inl tt,
     add_event (Logged DEBUG ("Output files for have been writed at: '" ++
                              str DEFAULT_OUTPUT_DIR ++ "'"))
       (written template_path (JsonFile (json.Rendered 2 (json.JArr []))) w)).
Proof. reflexivity. Qed.

(** The ways a conversion can end, each for every request the removal
    loop runs through at once. *)
Lemma convert_outcomes f acc w ds :
  fs w !! str f = Some (DicomFile ds) ->
  (exists e, forall req, convert_dicom_to_data f req acc w = (inr e, w)) \/
  (exists e, forall req, loop_done req ds w ->
     convert_dicom_to_data f req acc w = (inr e, after_metadata f req ds w)) \/
  (exists ev, forall req, loop_done req ds w ->
     convert_dicom_to_data f req acc w
     = (inl (acc ++ [entry f None])%list,
        add_event ev (after_metadata f req ds w))) \/
  (exists img, forall req, loop_done req ds w ->
     convert_dicom_to_data f req acc w
     = (inl (acc ++ [entry f (Some (image_path f))])%list,
        written (image_path f) (PngFile img) (after_metadata f req ds w))).
Proof.
  intros Hfs.
  destruct (filled (get ds "Rows") (get ds "Columns") (get ds "PixelData")
              (get ds "BitsStored")) eqn:Hfill.
  2: { right. right. left. exists (missing_fields_warning f). intros req Hloop.
       apply convert_not_filled; assumption. }
  assert (Hill : (forall R C B buf,
                    ~ (get ds "Rows" = VInt R /\ get ds "Columns" = VInt C /\
                       get ds "BitsStored" = VInt B /\ get ds "PixelData" = VBytes buf)) ->
                 exists e, forall req, convert_dicom_to_data f req acc w = (inr e, w)).
  { intros Hty. destruct (convert_ill_typed f acc w ds Hfs Hfill Hty) as (msg & Hmsg).
    exists (TypeError msg). exact Hmsg. }
  destruct (get ds "Rows") as [| R | | | |] eqn:HR;
    try (left; apply Hill; intros ? ? ? ? (E & _); discriminate).
  destruct (get ds "Columns") as [| C | | | |] eqn:HC;
    try (left; apply Hill; intros ? ? ? ? (_ & E & _); discriminate).
  destruct (get ds "BitsStored") as [| B | | | |] eqn:HB;
    try (left; apply Hill; intros ? ? ? ? (_ & _ & E & _); discriminate).
  destruct (get ds "PixelData") as [| | | | buf |] eqn:HP;
    try (left; apply Hill; intros ? ? ? ? (_ & _ & _ & E); discriminate).
  clear Hill.
  destruct (Z.eq_dec B 8) as [E8 | N8]; [| destruct (Z.eq_dec B 16) as [E16 | N16]].
  3: { right. left. exists (unsupported_bits B). intros req Hloop.
       apply (convert_bad_bits f req acc w ds R C B buf); assumption. }
  all: assert (HB' : B = 8 \/ B = 16) by auto.
  all: destruct (Z.eq_dec (Z.of_nat (length buf)) (R * C * (B / 8))) as [Hlen | Hlen].
  all: try (right; right; left; exists (size_error f); intros req Hloop;
            apply (convert_mismatch f req acc w ds R C B buf); assumption).
  all: destruct (np.ndarray_of byteorder R C (dtype_of B) buf) as [img | err] eqn:Hnd.
  all: try (right; right; right; exists img; intros req Hloop;
            rewrite (convert_match f req acc w ds R C B buf) by assumption;
            rewrite Hnd; reflexivity).
  all: right; left; exists err; intros req Hloop;
       rewrite (convert_match f req acc w ds R C B buf) by assumption;
       rewrite Hnd; reflexivity.
Qed.

Lemma convert_frame f req acc w p :
  p <> dataset_path f -> p <> image_path f ->
  fs (snd (convert_dicom_to_data f req acc w)) !! p = fs w !! p.
Proof.
  intros Hd Hi.
  destruct (convert_cases f req acc w)
    as [(e & _ & ->)
       | (ds & _ & [(k & evs & _ & _ & _ & ->)
                   | (_ & [(e & ->) | [-> | [-> | (img & ->)]]])])];
    cbn [snd]; unfold written, add_event, after_metadata; cbn [fs];
    rewrite ?lookup_insert_ne by auto; reflexivity.
Qed.

(** X4: A conversion changes the file system at the two output paths of its
    input and nowhere else; in particular it never changes an input file
    that is not at one of these paths. *)
Theorem conversion_touches_only_its_outputs f req acc w p :
  p <> dataset_path f -> p <> image_path f ->
  fs (snd (convert_dicom_to_data f req acc w)) !! p = fs w !! p.
Proof. apply convert_frame. Qed.

Lemma convert_all_frame files req acc w p :
  (forall f, In f files -> p <> dataset_path f /\ p <> image_path f) ->
  fs (snd (convert_all files req acc w)) !! p = fs w !! p.
Proof.
  revert acc w. induction files as [| f rest IH]; intros acc w Hp; [reflexivity |].
  rewrite convert_all_step.
  destruct (Hp f (or_introl eq_refl)) as [Hd Hi].
  pose proof (convert_frame f req acc (announced f w) p Hd Hi) as Hf.
  destruct (convert_dicom_to_data f req acc (announced f w)) as [[acc1 | e] w1];
    cbn [snd] in *.
  - rewrite IH by (intros g Hg; apply Hp; right; exact Hg). exact Hf.
  - exact Hf.
Qed.

(** X5: A batch changes the file system only at the output paths of its inputs
    and at the manifest path. *)
Theorem batch_touches_only_outputs files req w p :
  (forall f, In f files -> p <> dataset_path f /\ p <> image_path f) ->
  p <> template_path ->
  fs (snd (dicom2json files req w)) !! p = fs w !! p.
Proof.
  intros Hp Ht.
  pose proof (convert_all_frame files req [] w p Hp) as Hall.
  unfold dicom2json. rewrite try_except_raise_run. unfold bind at 1.
  destruct (convert_all files req [] w) as [[acc | e] w1]; cbn [snd] in *;
    [| exact Hall].
  rewrite with_suffix_template.
  unfold bind, lift, write_file, logger. cbn [snd fs].
  fold template_path. rewrite lookup_insert_ne by auto. exact Hall.
Qed.

(** X6: What a conversion returns and the image it writes do not depend on
    the removal request, as long as the request names no attribute of the
    dataset object: the pixel attributes are read before the loop, so a
    file still gets its image when Rows or PixelData are asked to be
    removed. *)
Theorem request_never_changes_the_item f req1 req2 acc w :
  no_attribute_named req1 -> no_attribute_named req2 ->
  fst (convert_dicom_to_data f req1 acc w)
  = fst (convert_dicom_to_data f req2 acc w) /\
  fs (snd (convert_dicom_to_data f req1 acc w)) !! image_path f
  = fs (snd (convert_dicom_to_data f req2 acc w)) !! image_path f.
Proof.
  intros Hreq1 Hreq2.
  destruct (fs w !! str f) as [[ds | | | |] |] eqn:Hfs.
  2-6: pose proof (unparsed_outcome f req1 acc w) as H1;
       pose proof (unparsed_outcome f req2 acc w) as H2;
       rewrite Hfs in H1, H2; rewrite H1, H2; auto.
  pose proof (remove_requested_run req1 ds w Hreq1) as Hloop1.
  pose proof (remove_requested_run req2 ds w Hreq2) as Hloop2.
  destruct (convert_outcomes f acc w ds Hfs)
    as [(e & He) | [(e & He) | [(ev & He) | (img & He)]]];
    rewrite ?(He req1), ?(He req2) by assumption; cbn [fst snd];
    (split; [reflexivity |]).
  - reflexivity.
  - rewrite !image_untouched_by_metadata. reflexivity.
  - change (fs (add_event ev ?x)) with (fs x).
    rewrite !image_untouched_by_metadata. reflexivity.
  - unfold written. cbn [fs]. rewrite !lookup_insert_eq. reflexivity.
Qed.

(** *** The removal loop *)

Lemma redacted_file_meta names ds : file_meta (redacted names ds) = file_meta ds.
Proof.
  revert ds. induction names as [| n rest IH]; intros ds; simpl; [reflexivity |].
  destruct (truthy (get ds n)); rewrite IH; reflexivity.
Qed.

Lemma redacted_lookup names ds k :
  elements (redacted names ds) !! k = None \/
  elements (redacted names ds) !! k = elements ds !! k.
Proof.
  revert ds. induction names as [| n rest IH]; intros ds; simpl; [auto |].
  destruct (truthy (get ds n)); [| apply IH].
  destruct (IH {| file_meta := file_meta ds; elements := delete n (elements ds) |})
    as [E | E]; [auto |].
  rewrite E. cbn [elements]. destruct (decide (n = k)) as [-> | Hne].
  - left. apply lookup_delete_eq.
  - right. apply lookup_delete_ne. exact Hne.
Qed.

Lemma redacted_keeps_falsy names ds k :
  is_attribute k = false ->
  truthy (get ds k) = false -> truthy (get (redacted names ds) k) = false.
Proof.
  intros Hattr Hf. rewrite (get_element ds k Hattr) in Hf.
  rewrite (get_element _ k Hattr).
  destruct (redacted_lookup names ds k) as [-> | ->]; [reflexivity | exact Hf].
Qed.

Lemma redacted_leaves_no_truthy_name names ds n :
  is_attribute n = false ->
  In n names -> truthy (get (redacted names ds) n) = false.
Proof.
  intros Hattr.
  revert ds. induction names as [| m rest IH]; intros ds Hin; [destruct Hin |].
  cbn [redacted]. destruct (String.eqb_spec m n) as [-> | Hne].
  - destruct (truthy (get ds n)) eqn:Ht.
    + apply redacted_keeps_falsy; [exact Hattr |].
      rewrite (get_element _ n Hattr). cbn [elements].
      rewrite lookup_delete_eq. reflexivity.
    + apply redacted_keeps_falsy; [exact Hattr | exact Ht].
  - destruct Hin as [E | Hin]; [congruence |].
    destruct (truthy (get ds m)); apply IH; exact Hin.
Qed.

Lemma redacted_of_falsy names ds :
  (forall n, In n names -> truthy (get ds n) = false) ->
  redacted names ds = ds /\
  redaction_warnings names ds = List.map unrecognized names.
Proof.
  induction names as [| n rest IH]; intros Hall; [split; reflexivity |].
  cbn [redacted redaction_warnings List.map].
  rewrite (Hall n (or_introl eq_refl)).
  destruct IH as [E1 E2]; [intros m Hm; apply Hall; right; exact Hm |].
  rewrite E1, E2. split; reflexivity.
Qed.

(** X7: On names that are no attributes of the dataset object the removal
    loop never raises (the [pop] is guarded by the [get], so its KeyError
    cannot occur) and writes no file; it leaves the header as it was, only
    deletes elements, and when it ends no requested name has a truthy value
    in the record. *)
Theorem removal_of_elements_never_raises names ds w :
  (forall n, In n names -> is_attribute n = false) ->
  exists ds' w',
    remove_fields names ds w = (inl ds', w') /\
    fs w' = fs w /\
    file_meta ds' = file_meta ds /\
    (forall k v, elements ds' !! k = Some v -> elements ds !! k = Some v) /\
    (forall n, In n names -> truthy (get ds' n) = false).
Proof.
  intros Hnames.
  eexists. eexists. split; [apply remove_fields_run; exact Hnames |].
  split; [reflexivity |]. split; [apply redacted_file_meta |]. split.
  - intros k v Hk. destruct (redacted_lookup names ds k) as [E | E];
      rewrite E in Hk; [discriminate | exact Hk].
  - intros n Hn. apply redacted_leaves_no_truthy_name; [apply Hnames |]; exact Hn.
Qed.

(** X8: Naming the fields a second time removes nothing more (for names that
    are no attributes of the dataset object): the record is the one the
    first pass left, and the second pass logs one "Unrecognized DICOM field"
    warning per name. *)
Theorem repeated_request_only_warns names ds w :
  (forall n, In n names -> is_attribute n = false) ->
  fst (remove_fields (names ++ names)%list ds w) = fst (remove_fields names ds w) /\
  fs (snd (remove_fields (names ++ names)%list ds w))
  = fs (snd (remove_fields names ds w)) /\
  trace (snd (remove_fields (names ++ names)%list ds w))
  = (trace (snd (remove_fields names ds w)) ++
     List.map (fun n => Logged WARNING ("Unrecognized DICOM field named '" ++ n ++ "'"))
       names)%list.
Proof.
  intros Hnames.
  rewrite (remove_fields_run names) by exact Hnames.
  rewrite (remove_fields_run (names ++ names)%list)
    by (intros n Hn; apply in_app_or in Hn; destruct Hn; apply Hnames; assumption).
  cbn [fst snd fs trace].
  rewrite redacted_app, redaction_warnings_app.
  destruct (redacted_of_falsy names (redacted names ds)) as [E1 E2].
  { intros n Hn. apply redacted_leaves_no_truthy_name; [apply Hnames |]; exact Hn. }
  rewrite E1, E2, app_assoc. auto.
Qed.

(** *** Members of the metadata document *)

Lemma leb_refl s : String.leb s s = true.
Proof. destruct (String.leb_total s s); assumption. Qed.

Lemma assoc_insert_member kv l k :
  json.assoc k (json.insert_member kv l) = json.assoc k (kv :: l).
Proof.
  induction l as [| [k1 v1] l IH]; [reflexivity |].
  cbn [json.insert_member fst].
  destruct (String.leb (fst kv) k1) eqn:Hle; [reflexivity |].
  destruct kv as [k0 v0]. cbn [fst] in *. cbn [json.assoc] in *.
  destruct (String.eqb_spec k k1) as [-> | Hne1].
  - destruct (String.eqb_spec k1 k0) as [-> | Hne0]; [| reflexivity].
    rewrite leb_refl in Hle. discriminate.
  - rewrite IH. reflexivity.
Qed.

Lemma assoc_sort_members l k :
  json.assoc k (json.sort_members l) = json.assoc k l.
Proof.
  induction l as [| [k0 v0] l IH]; [reflexivity |].
  unfold json.sort_members in *. cbn [fold_right].
  rewrite assoc_insert_member. cbn [json.assoc]. rewrite IH. reflexivity.
Qed.


Lemma assoc_encoded_present (l : list (string * value)) k v :
  (forall a b, json_key a = json_key b -> a = b) ->
  NoDup (l.*1) -> (k, v) ∈ l ->
  json.assoc (json_key k) (List.map encoded l)
  = Some (json.sorted (json_element k v)).
Proof.
  intros Hinj. induction l as [| [k0 v0] l IH]; intros Hnd Hin.
  - apply elem_of_nil in Hin. destruct Hin.
  - cbn [List.map encoded fst snd json.assoc].
    rewrite fmap_cons in Hnd. apply NoDup_cons in Hnd as [Hnotin Hnd'].
    apply elem_of_cons in Hin.
    destruct (String.eqb_spec (json_key k) (json_key k0)) as [E | Hne].
    + apply Hinj in E. subst k0. destruct Hin as [Hin | Hin].
      * inversion Hin; subst. reflexivity.
      * exfalso. apply Hnotin. cbn [fst]. apply list_elem_of_fmap.
        exists (k, v). split; [reflexivity | exact Hin].
    + destruct Hin as [Hin | Hin]; [inversion Hin; subst; congruence |].
      apply IH; assumption.
Qed.

Lemma assoc_encoded_absent (l : list (string * value)) k :
  (forall a b, json_key a = json_key b -> a = b) ->
  k ∉ l.*1 ->
  json.assoc (json_key k) (List.map encoded l) = None.
Proof.
  intros Hinj. induction l as [| [k0 v0] l IH]; intros Hnotin; [reflexivity |].
  cbn [List.map encoded fst snd json.assoc].
  rewrite fmap_cons in Hnotin. apply not_elem_of_cons in Hnotin as [Hne Hnotin].
  cbn [fst] in Hne.
  destruct (String.eqb_spec (json_key k) (json_key k0)) as [E | Hne'].
  - apply Hinj in E. congruence.
  - apply IH. exact Hnotin.
Qed.

Lemma sorted_to_json_dict (m : gmap string value) :
  json.sorted (to_json_dict m)
  = json.JObj (json.sort_members (List.map encoded (map_to_list m))).
Proof.
  unfold to_json_dict. cbn [json.sorted]. rewrite List.map_map.
  do 2 f_equal. apply List.map_ext. intros [k v]. reflexivity.
Qed.

Lemma member_to_json_dict (m : gmap string value) k :
  (forall a b, json_key a = json_key b -> a = b) ->
  json.member (json_key k) (json.sorted (to_json_dict m))
  = option_map (fun v => json.sorted (json_element k v)) (m !! k).
Proof.
  intros Hinj. rewrite sorted_to_json_dict. cbn [json.member].
  rewrite assoc_sort_members.
  destruct (m !! k) as [v |] eqn:Hk; cbn [option_map].
  - apply assoc_encoded_present; [exact Hinj | apply NoDup_fst_map_to_list |].
    apply elem_of_map_to_list. exact Hk.
  - apply assoc_encoded_absent; [exact Hinj |].
    intros Hin. apply list_elem_of_fmap in Hin. destruct Hin as ([k' v] & E & Hin).
    cbn [fst] in E. subst k'. apply elem_of_map_to_list in Hin. congruence.
Qed.

Lemma lookup_path_single k j : json.lookup_path [k] j = json.member k j.
Proof. cbn [json.lookup_path]. destruct (json.member k j); reflexivity. Qed.

Lemma lookup_path_object k rest l :
  json.lookup_path (k :: rest) (json.JObj l)
  = match json.assoc k l with
    | Some v => json.lookup_path rest v
    | None => None
    end.
Proof. reflexivity. Qed.

(** The two sections of the document written for a dataset. *)
Lemma document_sections (ds : Dataset) k :
  (forall a b, json_key a = json_key b -> a = b) ->
  json.lookup_path ["data"; json_key k]
    (json.doc_of (my_json_dumps (dataset_document ds)))
  = option_map (fun v => json.sorted (json_element k v)) (elements ds !! k) /\
  json.lookup_path ["meta"; json_key k]
    (json.doc_of (my_json_dumps (dataset_document ds)))
  = option_map (fun v => json.sorted (json_element k v)) (file_meta ds !! k).
Proof.
  intros Hinj.
  assert (Hdoc : json.doc_of (my_json_dumps (dataset_document ds))
                 = json.JObj (json.sort_members
                     [("meta", json.sorted (to_json_dict (file_meta ds)));
                      ("data", json.sorted (to_json_dict (elements ds)))]))
    by reflexivity.
  rewrite Hdoc, !lookup_path_object, !assoc_sort_members.
  change (json.assoc "data" [("meta", json.sorted (to_json_dict (file_meta ds)));
                             ("data", json.sorted (to_json_dict (elements ds)))])
    with (Some (json.sorted (to_json_dict (elements ds)))).
  change (json.assoc "meta" [("meta", json.sorted (to_json_dict (file_meta ds)));
                             ("data", json.sorted (to_json_dict (elements ds)))])
    with (Some (json.sorted (to_json_dict (file_meta ds)))).
  cbv beta iota. rewrite !lookup_path_single.
  split; apply member_to_json_dict; exact Hinj.
Qed.

(** A conversion that returns leaves the metadata document of the record
    the removal loop ended with at the metadata path. *)
Lemma returned_conversion_document f req acc w ds acc' w' :
  fs w !! str f = Some (DicomFile ds) ->
  convert_dicom_to_data f req acc w = (inl acc', w') ->
  document_at w' (dataset_path f)
  = Some (json.doc_of (my_json_dumps
                         (dataset_document (redacted (names_of req) ds)))).
Proof.
  intros Hfs Hrun.
  destruct (convert_cases f req acc w)
    as [(e & _ & E)
       | (ds0 & Hfs0 & [(k & evs & _ & _ & _ & E)
                       | (_ & [(e & E) | [E | [E | (img & E)]]])])];
    rewrite E in Hrun; inversion Hrun; subst; clear Hrun;
    rewrite Hfs in Hfs0; inversion Hfs0; subst ds0;
    unfold document_at, written, add_event; cbn [fs].
  - rewrite fs_after_metadata. reflexivity.
  - rewrite fs_after_metadata. reflexivity.
  - rewrite lookup_insert_ne by (apply not_eq_sym, dataset_path_not_image_path).
    rewrite fs_after_metadata. reflexivity.
Qed.

(** X9: A field named in the request whose value is truthy has no member in
    the data section of the metadata document (keys of distinct keywords
    being distinct). *)
Theorem named_truthy_field_has_no_member f names acc w ds acc' w' F :
  (forall a b, json_key a = json_key b -> a = b) ->
  fs w !! str f = Some (DicomFile ds) ->
  convert_dicom_to_data f (Some names) acc w = (inl acc', w') ->
  In F names -> truthy (get ds F) = true ->
  exists doc,
    document_at w' (dataset_path f) = Some doc /\
    json.lookup_path ["data"; json_key F] doc = None.
Proof.
  intros Hinj Hfs Hrun Hin Ht.
  eexists. split; [apply (returned_conversion_document _ _ _ _ _ _ _ Hfs Hrun) |].
  rewrite (proj1 (document_sections _ F Hinj)). cbn [names_of from_option id].
  rewrite (truthy_field_is_removed names ds F Hin Ht). reflexivity.
Qed.

(** X10: A field that is not named in the request keeps its member in the data
    section, whatever else is removed. *)
Theorem unnamed_field_keeps_member f names acc w ds acc' w' k v :
  (forall a b, json_key a = json_key b -> a = b) ->
  fs w !! str f = Some (DicomFile ds) ->
  convert_dicom_to_data f (Some names) acc w = (inl acc', w') ->
  ~ In k names -> elements ds !! k = Some v ->
  exists doc,
    document_at w' (dataset_path f) = Some doc /\
    json.lookup_path ["data"; json_key k] doc
    = Some (json.sorted (json_element k v)).
Proof.
  intros Hinj Hfs Hrun Hnot Hk.
  eexists. split; [apply (returned_conversion_document _ _ _ _ _ _ _ Hfs Hrun) |].
  rewrite (proj1 (document_sections _ k Hinj)). cbn [names_of from_option id].
  rewrite (other_fields_unchanged names ds k Hnot), Hk. reflexivity.
Qed.

(** X11: The removal request never reaches the file-meta header: an element of
    the header keeps its member in the meta section even when its keyword
    is named in the request. *)
Theorem header_is_never_redacted f req acc w ds acc' w' k v :
  (forall a b, json_key a = json_key b -> a = b) ->
  fs w !! str f = Some (DicomFile ds) ->
  convert_dicom_to_data f req acc w = (inl acc', w') ->
  file_meta ds !! k = Some v ->
  exists doc,
    document_at w' (dataset_path f) = Some doc /\
    json.lookup_path ["meta"; json_key k] doc
    = Some (json.sorted (json_element k v)).
Proof.
  intros Hinj Hfs Hrun Hk.
  eexists. split; [apply (returned_conversion_document _ _ _ _ _ _ _ Hfs Hrun) |].
  rewrite (proj2 (document_sections _ k Hinj)).
  rewrite redacted_file_meta, Hk. reflexivity.
Qed.

(** *** Pixels *)

Lemma reshape_lookup r c xs i j :
  (i < r)%nat -> (j < c)%nat ->
  match np.reshape r c xs !! i with
  | Some row => row !! j
  | None => None
  end = xs !! (i * c + j)%nat.
Proof.
  revert xs i. induction r as [| r IH]; intros xs i Hi Hj; [lia |].
  cbn [np.reshape]. destruct i as [| i].
  - cbn [lookup list_lookup]. rewrite lookup_take_lt by exact Hj. reflexivity.
  - change ((take c xs :: np.reshape r c (drop c xs)) !! S i)
      with (np.reshape r c (drop c xs) !! i).
    rewrite IH by lia. rewrite lookup_drop. f_equal. lia.
Qed.

Lemma lookup_map {A B} (g : A -> B) (l : list A) n :
  List.map g l !! n = option_map g (l !! n).
Proof.
  revert n. induction l as [| a l IH]; intros [| n]; try reflexivity.
  apply IH.
Qed.

(** X12: Pixel (i, j) of the array extracted from a frame is sample number
    i * Columns + j of the buffer; in an 8-bit frame it is the value of the
    byte at that position. *)
Theorem pixel_is_sample_in_row_major_order R C B buf i j :
  (i < Z.to_nat R)%nat -> (j < Z.to_nat C)%nat ->
  match np.array_rows (frame_image R C B buf) !! i with
  | Some row => row !! j
  | None => None
  end = np.samples byteorder (dtype_of B) buf !! (i * Z.to_nat C + j)%nat /\
  (B = 8 ->
   match np.array_rows (frame_image R C B buf) !! i with
   | Some row => row !! j
   | None => None
   end = option_map np.byte_val (buf !! (i * Z.to_nat C + j)%nat)).
Proof.
  intros Hi Hj. unfold frame_image. cbn [np.array_rows].
  rewrite reshape_lookup by assumption. split; [reflexivity |].
  intros ->. cbn [dtype_of Z.eqb Pos.eqb np.samples]. apply lookup_map.
Qed.

(** X13: Sample number n of a 16-bit frame is made of bytes 2n and 2n+1 of the
    buffer, the low byte first on a little-endian host and the high byte
    first on a big-endian one. *)
Theorem sample16_from_byte_pair o buf n b0 b1 :
  buf !! (2 * n)%nat = Some b0 -> buf !! (2 * n + 1)%nat = Some b1 ->
  np.samples o np.uint16 buf !! n
  = Some (match o with
          | np.Little => np.byte_val b0 + 256 * np.byte_val b1
          | np.Big => 256 * np.byte_val b0 + np.byte_val b1
          end).
Proof.
  cbn [np.samples]. revert buf. induction n as [| n IH]; intros buf H0 H1.
  - destruct buf as [| x [| y rest]]; try discriminate.
    cbn in H0, H1. inversion H0; inversion H1; subst. destruct o; reflexivity.
  - destruct buf as [| x [| y rest]]; try discriminate.
    cbn [np.words16].
    change ((np.word16 o x y :: np.words16 o rest) !! S n)
      with (np.words16 o rest !! n).
    apply IH.
    + replace (2 * S n)%nat with (S (S (2 * n))) in H0 by lia. exact H0.
    + replace (2 * S n + 1)%nat with (S (S (2 * n + 1))) in H1 by lia. exact H1.
Qed.

(** *** Output paths *)

Lemma dataset_path_by_stem f :
  stem f <> EmptyString -> stem f <> "." ->
  dataset_path f
  = str DEFAULT_OUTPUT_DIR ++ "/" ++ stem_of (stem f) ++ JsonConstants.SUFFIX /\
  image_path f
  = str DEFAULT_OUTPUT_DIR ++ "/" ++ stem_of (stem f) ++ PngConstants.SUFFIX.
Proof.
  intros Hne Hdot.
  unfold dataset_path, image_path, sibling, output_filepath, joinpath.
  destruct (String.eqb_spec (stem f) EmptyString) as [E | _]; [congruence |].
  destruct (String.eqb_spec (stem f) ".") as [E | _]; [congruence |].
  split; reflexivity.
Qed.

Lemma returned_conversion_file f req acc w ds acc' w' :
  fs w !! str f = Some (DicomFile ds) ->
  convert_dicom_to_data f req acc w = (inl acc', w') ->
  fs w' !! dataset_path f = Some (metadata_file req ds).
Proof.
  intros Hfs Hrun.
  destruct (convert_cases f req acc w)
    as [(e & _ & E)
       | (ds0 & Hfs0 & [(k & evs & _ & _ & _ & E)
                       | (_ & [(e & E) | [E | [E | (img & E)]]])])];
    rewrite E in Hrun; inversion Hrun; subst; clear Hrun;
    rewrite Hfs in Hfs0; inversion Hfs0; subst ds0;
    unfold written, add_event; cbn [fs].
  - apply fs_after_metadata.
  - apply fs_after_metadata.
  - rewrite lookup_insert_ne by (apply not_eq_sym, dataset_path_not_image_path).
    apply fs_after_metadata.
Qed.

(** X14: The output name keeps the input name only up to its second-last dot
    ([with_suffix] replaces what is left of a suffix after [stem]), and the
    directory of the input plays no part.  Two inputs that agree on that
    part (their stems being proper components, neither empty nor a single
    dot) share their output paths, so converting the second overwrites the
    metadata of the first. *)
Theorem same_stem_overwrites_metadata f1 f2 req acc w ds2 acc' w' :
  stem f1 <> EmptyString -> stem f2 <> EmptyString ->
  stem f1 <> "." -> stem f2 <> "." ->
  stem_of (stem f1) = stem_of (stem f2) ->
  fs w !! str f2 = Some (DicomFile ds2) ->
  convert_dicom_to_data f2 req acc w = (inl acc', w') ->
  dataset_path f1 = dataset_path f2 /\
  image_path f1 = image_path f2 /\
  fs w' !! dataset_path f1 = Some (metadata_file req ds2).
Proof.
  intros H1 H2 Hd1 Hd2 Hstem Hfs Hrun.
  destruct (dataset_path_by_stem f1 H1 Hd1) as [D1 I1].
  destruct (dataset_path_by_stem f2 H2 Hd2) as [D2 I2].
  assert (Hd : dataset_path f1 = dataset_path f2) by (rewrite D1, D2, Hstem; reflexivity).
  assert (Hi : image_path f1 = image_path f2) by (rewrite I1, I2, Hstem; reflexivity).
  split; [exact Hd |]. split; [exact Hi |]. rewrite Hd.
  exact (returned_conversion_file f2 req acc w ds2 acc' w' Hfs Hrun).
Qed.

(** *** The command line *)

Lemma ends_with_spec suffix nm :
  ends_with suffix nm = true <-> exists pre, nm = pre ++ suffix.
Proof.
  split.
  - induction nm as [| c nm IH]; cbn [ends_with]; intros Hm.
    + rewrite orb_false_r in Hm. apply String.eqb_eq in Hm.
      exists EmptyString. exact Hm.
    + apply orb_true_iff in Hm. destruct Hm as [Hm | Hm].
      * apply String.eqb_eq in Hm. exists EmptyString. exact Hm.
      * destruct (IH Hm) as (pre & ->). exists (String c pre). reflexivity.
  - intros (pre & ->). induction pre as [| c pre IH].
    + change (EmptyString ++ suffix) with suffix.
      destruct suffix; cbn [ends_with]; rewrite String.eqb_refl; reflexivity.
    + change (String c pre ++ suffix) with (String c (pre ++ suffix)).
      cbn [ends_with]. rewrite IH. apply orb_true_r.
Qed.

(** X15: Expanding a directory keeps exactly the listed names that end with the
    DICOM suffix, joined to the directory; every other name is skipped
    without a message. *)
Theorem directory_expansion_keeps_dicom_names d listing p :
  In p (glob_dicom d listing) <->
  exists n pre, In n listing /\ n = pre ++ DicomConstants.SUFFIX /\ p = joinpath d n.
Proof.
  unfold glob_dicom. rewrite in_map_iff. split.
  - intros (n & <- & Hn). apply filter_In in Hn. destruct Hn as [Hin Hm].
    apply ends_with_spec in Hm. destruct Hm as (pre & Hpre).
    exists n, pre. auto.
  - intros (n & pre & Hin & Hpre & ->). exists n. split; [reflexivity |].
    apply filter_In. split; [exact Hin |]. apply ends_with_spec. eauto.
Qed.

Lemma expand_inputs_ok stat inputs files :
  (forall p, In p inputs ->
             stat p = RegularFile \/ exists listing, stat p = Directory listing) ->
  expand_inputs stat inputs files
  = inl (files ++ flat_map (expansion stat) inputs)%list.
Proof.
  revert files. induction inputs as [| p rest IH]; intros files Hall.
  - cbn [expand_inputs flat_map]. rewrite app_nil_r. reflexivity.
  - cbn [expand_inputs flat_map]. unfold expansion at 1.
    assert (Hrest : forall q, In q rest ->
                     stat q = RegularFile \/ exists listing, stat q = Directory listing)
      by (intros q Hq; apply Hall; right; exact Hq).
    destruct (Hall p (or_introl eq_refl)) as [-> | (listing & ->)];
      rewrite IH by exact Hrest; rewrite <- app_assoc; reflexivity.
Qed.

Lemma expand_inputs_fails stat inputs files p :
  In p inputs -> stat p = Missing \/ stat p = Special ->
  exists msg, expand_inputs stat inputs files = inr (ValueError msg).
Proof.
  revert files. induction inputs as [| q rest IH]; intros files Hin Hbad;
    [destruct Hin |].
  cbn [expand_inputs].
  destruct (stat q) eqn:Hq; try (eexists; reflexivity).
  - destruct Hin as [-> | Hin]; [destruct Hbad; congruence |]. apply IH; assumption.
  - destruct Hin as [-> | Hin]; [destruct Hbad; congruence |]. apply IH; assumption.
Qed.

(** X16: The arguments are checked before anything is converted: when one of
    them does not exist, or is neither a file nor a directory, [main]
    raises ValueError with the world untouched, whatever the other
    arguments are, and the script logs the error and exits with code 1. *)
Theorem bad_argument_stops_before_any_conversion stat inputs req w p :
  In p inputs -> stat p = Missing \/ stat p = Special ->
  exists msg,
    main stat inputs req w = (inr (ValueError msg), w) /\
    script stat inputs req w
    = (Exit 1, {| fs := fs w; trace := (trace w ++ [Logged ERROR msg])%list |}).
Proof.
  intros Hin Hbad.
  destruct (expand_inputs_fails stat inputs [] p Hin Hbad) as (msg & Hexp).
  exists msg.
  assert (Hmain : main stat inputs req w = (inr (ValueError msg), w)).
  { unfold main, bind, lift. rewrite Hexp. reflexivity. }
  split; [exact Hmain |]. unfold script. rewrite Hmain. reflexivity.
Qed.

Lemma main_runs_expansion stat inputs req w :
  (forall p, In p inputs ->
             stat p = RegularFile \/ exists listing, stat p = Directory listing) ->
  main stat inputs req w = dicom2json (flat_map (expansion stat) inputs) req w.
Proof.
  intros Hall. unfold main, bind, lift.
  rewrite (expand_inputs_ok stat inputs [] Hall). cbn [app].
  apply try_except_raise_run.
Qed.

(** X17: When every argument is a file or a directory, [main] is the batch over
    the arguments in the order given, each directory standing for its DICOM
    entries in listing order. *)
Theorem main_converts_expansion_in_order stat inputs req w :
  (forall p, In p inputs ->
             stat p = RegularFile \/ exists listing, stat p = Directory listing) ->
  main stat inputs req w
  = dicom2json
      (flat_map (fun p => match stat p with
                          | RegularFile => [p]
                          | Directory listing => glob_dicom p listing
                          | _ => []
                          end) inputs) req w.
Proof. apply main_runs_expansion. Qed.

Lemma expansion_of_files stat inputs :
  (forall p, In p inputs -> stat p = RegularFile) ->
  flat_map (expansion stat) inputs = inputs.
Proof.
  induction inputs as [| p rest IH]; intros Hall; [reflexivity |].
  cbn [flat_map]. unfold expansion at 1. rewrite (Hall p (or_introl eq_refl)).
  rewrite IH by (intros q Hq; apply Hall; right; exact Hq). reflexivity.
Qed.

Lemma main_on_files stat inputs req w :
  (forall p, In p inputs -> stat p = RegularFile) ->
  main stat inputs req w = dicom2json inputs req w.
Proof.
  intros Hall. rewrite main_runs_expansion.
  - rewrite expansion_of_files by exact Hall. reflexivity.
  - intros p Hp. left. apply Hall. exact Hp.
Qed.

Lemma batch_raises pre f post req w acc w1 e w2 :
  convert_all pre req [] w = (inl acc, w1) ->
  convert_dicom_to_data f req acc (announced f w1) = (inr e, w2) ->
  dicom2json (pre ++ f :: post)%list req w = (inr e, w2).
Proof.
  intros Hpre Hf. apply dicom2json_raises.
  rewrite convert_all_app, Hpre, convert_all_step, Hf. reflexivity.
Qed.

(** X18: A ValueError raised by a conversion (the unsupported bit depth) reaches
    the handler of the script: the message is logged as an error after what
    the run had done, and the process exits with code 1. *)
Theorem conversion_value_error_exits_with_one
    stat pre f post req w acc w1 msg w2 :
  (forall p, In p (pre ++ f :: post)%list -> stat p = RegularFile) ->
  convert_all pre req [] w = (inl acc, w1) ->
  convert_dicom_to_data f req acc (announced f w1) = (inr (ValueError msg), w2) ->
  script stat (pre ++ f :: post)%list req w
  = (Exit 1, {| fs := fs w2; trace := (trace w2 ++ [Logged ERROR msg])%list |}).
Proof.
  intros Hall Hpre Hf. unfold script.
  rewrite (main_on_files stat _ req w Hall).
  rewrite (batch_raises pre f post req w acc w1 _ w2 Hpre Hf). reflexivity.
Qed.

(** X19: The handler of the script names ValueError only: any other error a
    conversion raises (FileNotFoundError, PermissionError and
    InvalidDicomError of the read) leaves the script unhandled, with no
    exit code of the script and nothing logged for it. *)
Theorem other_errors_are_not_handled stat pre f post req w acc w1 e w2 :
  (forall p, In p (pre ++ f :: post)%list -> stat p = RegularFile) ->
  convert_all pre req [] w = (inl acc, w1) ->
  convert_dicom_to_data f req acc (announced f w1) = (inr e, w2) ->
  (forall msg, e <> ValueError msg) ->
  script stat (pre ++ f :: post)%list req w = (Unhandled e, w2).
Proof.
  intros Hall Hpre Hf Hne. unfold script.
  rewrite (main_on_files stat _ req w Hall).
  rewrite (batch_raises pre f post req w acc w1 _ w2 Hpre Hf).
  destruct e; try reflexivity. exfalso. apply (Hne msg). reflexivity.
Qed.

Lemma expansion_without_dicom stat inputs :
  (forall p, In p inputs ->
     exists listing, stat p = Directory listing /\
       forall n, In n listing -> ends_with DicomConstants.SUFFIX n = false) ->
  flat_map (expansion stat) inputs = [].
Proof.
  induction inputs as [| p rest IH]; intros Hall; [reflexivity |].
  cbn [flat_map]. rewrite IH by (intros q Hq; apply Hall; right; exact Hq).
  rewrite app_nil_r.
  destruct (Hall p (or_introl eq_refl)) as (listing & Hp & Hnone).
  unfold expansion. rewrite Hp. unfold glob_dicom.
  replace (List.filter (ends_with DicomConstants.SUFFIX) listing) with (@nil string);
    [reflexivity |].
  symmetry. clear Hp. induction listing as [| n listing IHl]; [reflexivity |].
  cbn [List.filter]. rewrite (Hnone n (or_introl eq_refl)).
  apply IHl. intros n' Hn'. apply Hnone. right. exact Hn'.
Qed.

(** X3: Directories that list no name with the DICOM suffix are not an error:
    nothing is converted, the manifest is written as an empty array and the
    script exits with code 0. *)
Theorem directories_without_dicom_give_empty_manifest stat inputs req w :
  (forall p, In p inputs ->
     exists listing, stat p = Directory listing /\
       forall n, In n listing -> ends_with DicomConstants.SUFFIX n = false) ->
  script stat inputs req w
  = (Exit 0,
     add_event (Logged DEBUG ("Output files for have been writed at: '" ++
                              str DEFAULT_OUTPUT_DIR ++ "'"))
       (written template_path (JsonFile (json.Rendered 2 (json.JArr []))) w)).
Proof.
  intros Hall. unfold script.
  rewrite main_runs_expansion.
  - rewrite (expansion_without_dicom stat inputs Hall), empty_batch. reflexivity.
  - intros p Hp. destruct (Hall p Hp) as (listing & Hl & _). right. eauto.
Qed.

End Further.

(** ** Instances of the further properties on the sample files *)

Lemma first_failure_aborts_batch_witness :
  convert_all [Demo.scan] None [] Demo.mixed_files
  = (inl [Demo.scan_item], snd (convert_all [Demo.scan] None [] Demo.mixed_files)) /\
  convert_dicom_to_data Demo.notes None [Demo.scan_item]
    (announced Demo.notes (snd (convert_all [Demo.scan] None [] Demo.mixed_files)))
  = (inr InvalidDicomError,
     announced Demo.notes (snd (convert_all [Demo.scan] None [] Demo.mixed_files))) /\
  fst (dicom2json ([Demo.scan] ++ Demo.notes :: [Demo.second])%list None Demo.mixed_files)
  = inr InvalidDicomError.
Proof.
  assert (H1 : convert_all [Demo.scan] None [] Demo.mixed_files
               = (inl [Demo.scan_item],
                  snd (convert_all [Demo.scan] None [] Demo.mixed_files)))
    by (vm_compute; reflexivity).
  assert (H2 : convert_dicom_to_data Demo.notes None [Demo.scan_item]
                 (announced Demo.notes
                    (snd (convert_all [Demo.scan] None [] Demo.mixed_files)))
               = (inr InvalidDicomError,
                  announced Demo.notes
                    (snd (convert_all [Demo.scan] None [] Demo.mixed_files))))
    by (vm_compute; reflexivity).
  split; [exact H1 |]. split; [exact H2 |].
  destruct (first_failure_aborts_batch [Demo.scan] Demo.notes [Demo.second] None
              Demo.mixed_files _ _ _ _ H1 H2) as [E _].
  rewrite E. reflexivity.
Defined.

Lemma conversion_touches_only_its_outputs_witness :
  str Demo.scan <> dataset_path Demo.scan /\
  str Demo.scan <> image_path Demo.scan /\
  fs (snd (convert_dicom_to_data Demo.scan None [] (Demo.world_of Demo.valid_frame)))
    !! str Demo.scan
  = fs (Demo.world_of Demo.valid_frame) !! str Demo.scan.
Proof.
  assert (H1 : str Demo.scan <> dataset_path Demo.scan)
    by (intros E; vm_compute in E; discriminate E).
  assert (H2 : str Demo.scan <> image_path Demo.scan)
    by (intros E; vm_compute in E; discriminate E).
  split; [exact H1 |]. split; [exact H2 |].
  apply (conversion_touches_only_its_outputs Demo.scan None []
           (Demo.world_of Demo.valid_frame) (str Demo.scan) H1 H2).
Defined.

Lemma batch_touches_only_outputs_witness :
  str Demo.scan <> template_path /\
  fs (snd (dicom2json [Demo.scan; Demo.second] None Demo.two_files)) !! str Demo.scan
  = fs Demo.two_files !! str Demo.scan.
Proof.
  assert (H1 : str Demo.scan <> template_path)
    by (intros E; vm_compute in E; discriminate E).
  split; [exact H1 |].
  apply (batch_touches_only_outputs [Demo.scan; Demo.second] None Demo.two_files
           (str Demo.scan)); [| exact H1].
  intros f [<- | [<- | []]]; split; intros E; vm_compute in E; discriminate E.
Defined.

Lemma named_truthy_field_has_no_member_witness :
  fs (Demo.world_of Demo.valid_frame) !! str Demo.scan
  = Some (DicomFile Demo.valid_frame) /\
  In "PatientName" ["PatientName"] /\
  truthy (get Demo.valid_frame "PatientName") = true /\
  exists doc,
    document_at
      (snd (@convert_dicom_to_data Demo.keyword_env Demo.scan (Some ["PatientName"]) []
              (Demo.world_of Demo.valid_frame)))
      (@dataset_path Demo.keyword_env Demo.scan) = Some doc /\
    json.lookup_path ["data"; "PatientName"] doc = None.
Proof.
  split; [reflexivity |]. split; [left; reflexivity |]. split; [reflexivity |].
  apply (@named_truthy_field_has_no_member Demo.keyword_env Demo.scan ["PatientName"] []
           (Demo.world_of Demo.valid_frame) Demo.valid_frame [Demo.scan_item] _
           "PatientName" (fun a b E => E));
    [reflexivity | vm_compute; reflexivity | left; reflexivity | reflexivity].
Defined.

Lemma unnamed_field_keeps_member_witness :
  ~ In "Rows" ["PatientName"] /\
  elements Demo.valid_frame !! "Rows" = Some (VInt 2) /\
  exists doc,
    document_at
      (snd (@convert_dicom_to_data Demo.keyword_env Demo.scan (Some ["PatientName"]) []
              (Demo.world_of Demo.valid_frame)))
      (@dataset_path Demo.keyword_env Demo.scan) = Some doc /\
    json.lookup_path ["data"; "Rows"] doc
    = Some (json.sorted (Demo.demo_element "Rows" (VInt 2))).
Proof.
  assert (Hnot : ~ In "Rows" ["PatientName"])
    by (intros [E | []]; discriminate E).
  split; [exact Hnot |]. split; [reflexivity |].
  apply (@unnamed_field_keeps_member Demo.keyword_env Demo.scan ["PatientName"] []
           (Demo.world_of Demo.valid_frame) Demo.valid_frame [Demo.scan_item] _
           "Rows" (VInt 2) (fun a b E => E));
    [reflexivity | vm_compute; reflexivity | exact Hnot | reflexivity].
Defined.

Lemma header_is_never_redacted_witness :
  file_meta Demo.valid_frame !! "TransferSyntaxUID"
  = Some (VStr "1.2.840.10008.1.2.1") /\
  exists doc,
    document_at
      (snd (@convert_dicom_to_data Demo.keyword_env Demo.scan
              (Some ["TransferSyntaxUID"]) [] (Demo.world_of Demo.valid_frame)))
      (@dataset_path Demo.keyword_env Demo.scan) = Some doc /\
    json.lookup_path ["meta"; "TransferSyntaxUID"] doc
    = Some (json.sorted (Demo.demo_element "TransferSyntaxUID"
                           (VStr "1.2.840.10008.1.2.1"))).
Proof.
  split; [reflexivity |].
  apply (@header_is_never_redacted Demo.keyword_env Demo.scan
           (Some ["TransferSyntaxUID"]) [] (Demo.world_of Demo.valid_frame)
           Demo.valid_frame [Demo.scan_item] _ "TransferSyntaxUID"
           (VStr "1.2.840.10008.1.2.1") (fun a b E => E));
    [reflexivity | vm_compute; reflexivity | reflexivity].
Defined.

Lemma pixel_is_sample_in_row_major_order_witness :
  (1 < Z.to_nat 2)%nat /\ (0 < Z.to_nat 2)%nat /\
  match np.array_rows (frame_image 2 2 8 (Demo.bytes_of [10; 20; 30; 40])) !! 1%nat with
  | Some row => row !! 0%nat
  | None => None
  end
  = np.samples byteorder (dtype_of 8) (Demo.bytes_of [10; 20; 30; 40])
      !! (1 * Z.to_nat 2 + 0)%nat.
Proof.
  assert (H1 : (1 < Z.to_nat 2)%nat) by (vm_compute; lia).
  assert (H2 : (0 < Z.to_nat 2)%nat) by (vm_compute; lia).
  split; [exact H1 |]. split; [exact H2 |].
  destruct (@pixel_is_sample_in_row_major_order Demo.env 2 2 8
              (Demo.bytes_of [10; 20; 30; 40]) 1%nat 0%nat H1 H2) as [E _].
  exact E.
Defined.

Lemma sample16_from_byte_pair_witness :
  Demo.bytes_of [1; 2; 3; 4] !! (2 * 1)%nat = Some "003"%byte /\
  Demo.bytes_of [1; 2; 3; 4] !! (2 * 1 + 1)%nat = Some "004"%byte /\
  np.samples np.Little np.uint16 (Demo.bytes_of [1; 2; 3; 4]) !! 1%nat
  = Some (np.byte_val "003"%byte + 256 * np.byte_val "004"%byte).
Proof.
  split; [reflexivity |]. split; [reflexivity |].
  apply (sample16_from_byte_pair np.Little (Demo.bytes_of [1; 2; 3; 4]) 1%nat
           "003"%byte "004"%byte); reflexivity.
Defined.

Lemma same_stem_overwrites_metadata_witness :
  stem Demo.slice1 <> EmptyString /\ stem Demo.slice2 <> EmptyString /\
  stem Demo.slice1 <> "." /\ stem Demo.slice2 <> "." /\
  stem_of (stem Demo.slice1) = stem_of (stem Demo.slice2) /\
  fs Demo.series !! str Demo.slice2 = Some (DicomFile Demo.valid_frame) /\
  dataset_path Demo.slice1 = dataset_path Demo.slice2.
Proof.
  assert (H1 : stem Demo.slice1 <> EmptyString) by (vm_compute; discriminate).
  assert (H2 : stem Demo.slice2 <> EmptyString) by (vm_compute; discriminate).
  assert (H3 : stem Demo.slice1 <> ".") by (vm_compute; discriminate).
  assert (H4 : stem Demo.slice2 <> ".") by (vm_compute; discriminate).
  split; [exact H1 |]. split; [exact H2 |]. split; [exact H3 |]. split; [exact H4 |].
  split; [reflexivity |]. split; [reflexivity |].
  eapply (same_stem_overwrites_metadata Demo.slice1 Demo.slice2 None [] Demo.series
            Demo.valid_frame _ _ H1 H2 H3 H4);
    [reflexivity | reflexivity | vm_compute; reflexivity].
Defined.

(** An input named [..dcm] has the stem [.], which the join drops: its
    outputs are written beside the output directory, not in it. *)
Lemma dot_stem_output_paths :
  stem Demo.dotted = "." /\
  dataset_path Demo.dotted = "/opt/dicomjson/output.json" /\
  image_path Demo.dotted = "/opt/dicomjson/output.png".
Proof. repeat split; vm_compute; reflexivity. Qed.

Lemma request_never_changes_the_item_witness :
  no_attribute_named (Some ["Rows"; "PixelData"]) /\
  no_attribute_named None /\
  fst (convert_dicom_to_data Demo.scan (Some ["Rows"; "PixelData"]) []
         (Demo.world_of Demo.valid_frame))
  = fst (convert_dicom_to_data Demo.scan None [] (Demo.world_of Demo.valid_frame)).
Proof.
  assert (H1 : no_attribute_named (Some ["Rows"; "PixelData"])) by names_elements.
  assert (H2 : no_attribute_named None) by names_elements.
  split; [exact H1 |]. split; [exact H2 |].
  apply (request_never_changes_the_item Demo.scan (Some ["Rows"; "PixelData"]) None []
           (Demo.world_of Demo.valid_frame) H1 H2).
Defined.

Lemma removal_of_elements_never_raises_witness :
  (forall n, In n ["PatientName"; "Foo"] -> is_attribute n = false) /\
  exists ds' w',
    remove_fields ["PatientName"; "Foo"] Demo.valid_frame (Demo.world_of Demo.valid_frame)
    = (inl ds', w') /\
    fs w' = fs (Demo.world_of Demo.valid_frame).
Proof.
  assert (H1 : forall n, In n ["PatientName"; "Foo"] -> is_attribute n = false)
    by names_elements.
  split; [exact H1 |].
  destruct (removal_of_elements_never_raises ["PatientName"; "Foo"] Demo.valid_frame
              (Demo.world_of Demo.valid_frame) H1)
    as (ds' & w' & Hrun & Hfs & _).
  exists ds', w'. split; assumption.
Defined.

Lemma repeated_request_only_warns_witness :
  (forall n, In n ["PatientName"] -> is_attribute n = false) /\
  fst (remove_fields (["PatientName"] ++ ["PatientName"])%list Demo.valid_frame
         (Demo.world_of Demo.valid_frame))
  = fst (remove_fields ["PatientName"] Demo.valid_frame (Demo.world_of Demo.valid_frame)).
Proof.
  assert (H1 : forall n, In n ["PatientName"] -> is_attribute n = false)
    by names_elements.
  split; [exact H1 |].
  apply (repeated_request_only_warns ["PatientName"] Demo.valid_frame
           (Demo.world_of Demo.valid_frame) H1).
Defined.

Lemma bad_argument_stops_before_any_conversion_witness :
  In Demo.nowhere [Demo.scan; Demo.nowhere] /\
  Demo.sample_stat Demo.nowhere = Missing /\
  exists msg,
    main Demo.sample_stat [Demo.scan; Demo.nowhere] None
      (Demo.world_of Demo.valid_frame)
    = (inr (ValueError msg), Demo.world_of Demo.valid_frame).
Proof.
  assert (H1 : In Demo.nowhere [Demo.scan; Demo.nowhere])
    by (right; left; reflexivity).
  assert (H2 : Demo.sample_stat Demo.nowhere = Missing) by reflexivity.
  split; [exact H1 |]. split; [exact H2 |].
  destruct (bad_argument_stops_before_any_conversion Demo.sample_stat
              [Demo.scan; Demo.nowhere] None (Demo.world_of Demo.valid_frame)
              Demo.nowhere H1 (or_introl H2)) as (msg & Hmain & _).
  exists msg. exact Hmain.
Defined.

Lemma main_converts_expansion_in_order_witness :
  Demo.sample_stat Demo.scan = RegularFile /\
  Demo.sample_stat Demo.folder = Directory ["a.dcm"; "readme.txt"; "b.dcm"] /\
  main Demo.sample_stat [Demo.scan; Demo.folder] None (Demo.world_of Demo.valid_frame)
  = dicom2json [Demo.scan; joinpath Demo.folder "a.dcm"; joinpath Demo.folder "b.dcm"]
      None (Demo.world_of Demo.valid_frame).
Proof.
  split; [reflexivity |]. split; [reflexivity |].
  apply (main_converts_expansion_in_order Demo.sample_stat [Demo.scan; Demo.folder]
           None (Demo.world_of Demo.valid_frame)).
  intros p [<- | [<- | []]]; [left; reflexivity | right; eexists; reflexivity].
Defined.

Lemma conversion_value_error_exits_with_one_witness :
  convert_all [] None [] (Demo.world_of Demo.odd_depth_frame)
  = (inl [], Demo.world_of Demo.odd_depth_frame) /\
  fst (script Demo.sample_stat ([] ++ Demo.scan :: [])%list None
         (Demo.world_of Demo.odd_depth_frame))
  = Exit 1.
Proof.
  split; [reflexivity |].
  erewrite (conversion_value_error_exits_with_one Demo.sample_stat [] Demo.scan []
              None (Demo.world_of Demo.odd_depth_frame) []
              (Demo.world_of Demo.odd_depth_frame));
    [reflexivity
    | intros p [<- | []]; reflexivity
    | reflexivity
    | vm_compute; reflexivity].
Defined.

Lemma other_errors_are_not_handled_witness :
  convert_all [Demo.scan] None [] Demo.mixed_files
  = (inl [Demo.scan_item], snd (convert_all [Demo.scan] None [] Demo.mixed_files)) /\
  fst (script Demo.sample_stat ([Demo.scan] ++ Demo.notes :: [Demo.second])%list None
         Demo.mixed_files)
  = Unhandled InvalidDicomError.
Proof.
  assert (H1 : convert_all [Demo.scan] None [] Demo.mixed_files
               = (inl [Demo.scan_item],
                  snd (convert_all [Demo.scan] None [] Demo.mixed_files)))
    by (vm_compute; reflexivity).
  split; [exact H1 |].
  erewrite (other_errors_are_not_handled Demo.sample_stat [Demo.scan] Demo.notes
              [Demo.second] None Demo.mixed_files _ _ InvalidDicomError _ _ H1);
    [reflexivity | vm_compute; reflexivity | intros msg E; discriminate E].
  Unshelve.
  intros p [<- | [<- | [<- | []]]]; reflexivity.
Defined.

Lemma directories_without_dicom_give_empty_manifest_witness :
  ends_with DicomConstants.SUFFIX "readme.txt" = false /\
  fst (script (fun _ => Directory ["readme.txt"]) [Demo.folder] None
         (Demo.world_of Demo.valid_frame))
  = Exit 0.
Proof.
  split; [reflexivity |].
  rewrite (directories_without_dicom_give_empty_manifest
             (fun _ => Directory ["readme.txt"]) [Demo.folder] None
             (Demo.world_of Demo.valid_frame)).
  - reflexivity.
  - intros p _. exists ["readme.txt"]. split; [reflexivity |].
    intros n [<- | []]. reflexivity.
Defined.
